(** * Multi-tenant SaaS back end: route handlers and tenant guard

    A shallow embedding of the Express route handlers of
    [backend/src/routes/users.routes.js], of the project routes and of the
    [tenantGuard] middleware, over an explicit model of the PostgreSQL tables
    they query.  Every [await pool.query(...)] of a handler is one atomic
    database operation; a handler is the tree of its awaits, so that the same
    definition can be run alone or interleaved with other requests at its
    await points, the way the Node.js event loop runs it. *)

From Stdlib Require Import String List Bool Arith ZArith Lia Permutation Sorted.
Import ListNotations.
Open Scope string_scope.

(** ** JavaScript values *)

(** A body field read by destructuring: absent ([undefined]), JSON [null],
    or a value. *)
Inductive jsfield (A : Type) : Type :=
| Undefined
| Null
| Val (a : A).
Arguments Undefined {A}.
Arguments Null {A}.
Arguments Val {A} a.

(** [x !== undefined] *)
Definition defined {A} (f : jsfield A) : bool :=
  match f with Undefined => false | _ => true end.

(** node-postgres sends both [undefined] and [null] as SQL NULL. *)
Definition to_sql {A} (f : jsfield A) : option A :=
  match f with Val a => Some a | _ => None end.

(** Destructuring default, [{ x = d }]: applies to [undefined] only. *)
Definition or_default {A} (d : A) (f : jsfield A) : jsfield A :=
  match f with Undefined => Val d | _ => f end.

(** [a ?? b], with [b] a column value *)
Definition nullish {A} (f : jsfield A) (d : option A) : option A :=
  match f with Val a => Some a | _ => d end.

(** [!req.tenantId]: [null], [undefined] and the empty string are falsy. *)
Definition falsy (t : option string) : bool :=
  match t with
  | None => true
  | Some s => String.eqb s ""
  end.

(** [s === t] for a string [s] and a value [t] that is a string or null. *)
Definition strict_eq (s : string) (t : option string) : bool :=
  match t with
  | Some s' => String.eqb s s'
  | None => false
  end.

(** [a === b] for two values that are each a string or null. *)
Definition strict_eq_null (a b : option string) : bool :=
  match a, b with
  | Some x, Some y => String.eqb x y
  | None, None => true
  | _, _ => false
  end.

(** ** SQL values *)

(** [col = $1]: a comparison with NULL on either side selects nothing. *)
Definition sql_eq (col param : option string) : bool :=
  match col, param with
  | Some a, Some b => String.eqb a b
  | _, _ => false
  end.

(** [COALESCE($n, col)] *)
Definition COALESCE {A} (param col : option A) : option A :=
  match param with Some a => Some a | None => col end.

(** ** Tables *)

Record TenantRow := {
  t_id : string;
  t_name : string;
  subdomain : string;
  t_status : string;
  subscription_plan : string;
  max_users : nat;
  max_projects : nat
}.

Record UserRow := {
  u_id : string;
  u_tenant_id : option string;
  email : string;
  password_hash : string;
  full_name : option string;
  u_role : option string;
  is_active : option bool;
  u_created_at : nat
}.

Record ProjectRow := {
  p_id : string;
  p_tenant_id : option string;
  p_name : option string;
  p_description : option string;
  p_status : option string;
  created_by : string;
  p_created_at : nat;
  updated_at : nat
}.

Record TaskRow := {
  k_id : string;
  project_id : string;
  k_status : string;
  assigned_to : option string
}.

(** The object handed to [auditLog], one row of [audit_logs]. *)
Record AuditEntry := {
  a_tenantId : option string;
  a_userId : string;
  a_action : string;
  a_entityType : string;
  a_entityId : string;
  a_ip : string
}.

Record DB := {
  tenants : list TenantRow;
  users : list UserRow;
  projects : list ProjectRow;
  tasks : list TaskRow;
  audit_logs : list AuditEntry
}.

Definition set_users (us : list UserRow) (db : DB) : DB :=
  {| tenants := tenants db; users := us; projects := projects db;
     tasks := tasks db; audit_logs := audit_logs db |}.

Definition set_projects (ps : list ProjectRow) (db : DB) : DB :=
  {| tenants := tenants db; users := users db; projects := ps;
     tasks := tasks db; audit_logs := audit_logs db |}.

Definition set_tasks (ks : list TaskRow) (db : DB) : DB :=
  {| tenants := tenants db; users := users db; projects := projects db;
     tasks := ks; audit_logs := audit_logs db |}.

Definition set_audit_logs (al : list AuditEntry) (db : DB) : DB :=
  {| tenants := tenants db; users := users db; projects := projects db;
     tasks := tasks db; audit_logs := al |}.

(** ** Requests and responses *)

(** [req.user], decoded from the token by the [auth] middleware. *)
Record User := {
  userId : string;
  role : string
}.

Record Params := {
  p_tenantId : string;
  p_userId : string;
  p_projectId : string
}.

(** The fields the handlers destructure from [req.body].  The creation
    handlers are given the required strings; optional fields are absent or
    present. *)
Record Body := {
  b_email : string;
  b_password : string;
  b_fullName : jsfield string;
  b_role : jsfield string;
  b_isActive : jsfield bool;
  b_name : jsfield string;
  b_description : jsfield string;
  b_status : jsfield string
}.

(** A request as the handlers see it once [auth] has accepted the credential
    and set [req.user] and [req.tenantId] from its claims. *)
Record Request := {
  user : User;
  tenantId : option string;
  params : Params;
  body : Body;
  ip : string
}.

(** What the run time supplies to one request besides the database:
    the value [uuidv4()] returns, the database clock ([NOW()] and the
    [created_at] default) and [bcrypt.hash]. *)
Record Env := {
  uuidv4 : string;
  NOW : nat;
  bcrypt_hash : string -> nat -> string
}.

(** The columns of [SELECT id, email, full_name, role, is_active, created_at]. *)
Record UserView := {
  v_id : string;
  v_email : string;
  v_full_name : option string;
  v_role : option string;
  v_is_active : option bool;
  v_created_at : nat
}.

Inductive Data :=
| NoData
| Rows (rows : list UserView)
| UsersTotal (rows : list UserView) (total : nat)
| NewUser (id email : string) (fullName role : jsfield string)
| NewId (id : string)
| ProjectData (id : string) (name description status : option string).

(** [res.status(s).json({ success, message, data })] *)
Record Response := {
  status : nat;
  success : bool;
  message : option string;
  data : Data
}.

Definition json (s : nat) (ok : bool) (m : string) : Response :=
  {| status := s; success := ok; message := Some m; data := NoData |}.

(** How a handler ends: a response was sent, or the [async] function threw
    outside any [try] and its promise was rejected with nothing sent. *)
Inductive Outcome :=
| Sent (r : Response)
| Rejected (err : string).

(** ** Handlers as trees of awaits *)

Inductive Prog : Type :=
| Done (o : Outcome)
| Await (A : Type) (q : DB -> DB * A) (k : A -> Prog).
Arguments Await {A} q k.

Notation "'let!' x ':=' 'await' q 'in' k" :=
  (Await q (fun x => k))
  (at level 10, x name, q at level 10, k at level 200).
Notation "'await!' q ';;' k" :=
  (Await q (fun _ => k))
  (at level 10, q at level 10, k at level 200).

(** A read-only query and a statement executed for its effect. *)
Definition SELECT {A} (f : DB -> A) : DB -> DB * A := fun db => (db, f db).
Definition EXEC (f : DB -> DB) : DB -> DB * unit := fun db => (f db, tt).

(** The handler run with no other request in between. *)
Fixpoint run (p : Prog) (db : DB) : DB * Outcome :=
  match p with
  | Done o => (db, o)
  | Await q k => let (db', a) := q db in run (k a) db'
  end.

(** A middleware either answers ([Some]) or calls [next()] ([None]). *)
Definition Middleware := Request -> option Response.

Fixpoint chain (ms : list Middleware) (h : Request -> Prog) (req : Request) : Prog :=
  match ms with
  | [] => h req
  | m :: ms' =>
      match m req with
      | Some r => Done (Sent r)
      | None => chain ms' h req
      end
  end.

(** ** middleware/tenantGuard *)

Definition tenantGuard : Middleware := fun req =>
  if String.eqb (role (user req)) "super_admin" then None
  else if falsy (tenantId req) then Some (json 403 false "Tenant access denied")
  else None.

(** ** Queries

    The schema is not among the sources.  Each statement is modelled on the
    rows of its table: ids identify rows, every other column may be NULL, and
    no statement fails on a constraint. *)

(** [SELECT COUNT( * ) FROM users WHERE tenant_id=$1] *)
Definition count_users (tid : option string) (db : DB) : nat :=
  length (filter (fun u => sql_eq (u_tenant_id u) tid) (users db)).

(** [SELECT COUNT( * ) FROM projects WHERE tenant_id=$1] *)
Definition count_projects (tid : option string) (db : DB) : nat :=
  length (filter (fun p => sql_eq (p_tenant_id p) tid) (projects db)).

(** [SELECT ... FROM tenants WHERE id=$1], then [rows[0]] *)
Definition tenant_row (tid : option string) (db : DB) : option TenantRow :=
  find (fun t => sql_eq (Some (t_id t)) tid) (tenants db).

(** [SELECT * FROM users WHERE id=$1], then [rows[0]] *)
Definition user_by_id (id : string) (db : DB) : option UserRow :=
  find (fun u => String.eqb (u_id u) id) (users db).

(** [SELECT * FROM projects WHERE id=$1 AND tenant_id=$2], then [rows[0]] *)
Definition project_in_tenant (id : string) (tid : option string) (db : DB)
  : option ProjectRow :=
  find (fun p => String.eqb (p_id p) id && sql_eq (p_tenant_id p) tid) (projects db).

(** [ORDER BY created_at DESC], by insertion. *)
Fixpoint insert_desc (u : UserRow) (l : list UserRow) : list UserRow :=
  match l with
  | [] => [u]
  | v :: l' =>
      if Nat.leb (u_created_at v) (u_created_at u) then u :: l
      else v :: insert_desc u l'
  end.

Definition order_by_created_at_desc (l : list UserRow) : list UserRow :=
  fold_right insert_desc [] l.

Definition view (u : UserRow) : UserView :=
  {| v_id := u_id u; v_email := email u; v_full_name := full_name u;
     v_role := u_role u; v_is_active := is_active u;
     v_created_at := u_created_at u |}.

(** [SELECT id, email, full_name, role, is_active, created_at
     FROM users WHERE tenant_id=$1 ORDER BY created_at DESC] *)
Definition users_of_tenant (tid : option string) (db : DB) : list UserView :=
  map view
    (order_by_created_at_desc
       (filter (fun u => sql_eq (u_tenant_id u) tid) (users db))).

(** The [SET] clause [full_name = COALESCE($1, full_name),
    role = COALESCE($2, role), is_active = COALESCE($3, is_active)]. *)
Definition updated_user (b : Body) (u : UserRow) : UserRow :=
  {| u_id := u_id u; u_tenant_id := u_tenant_id u;
     email := email u; password_hash := password_hash u;
     full_name := COALESCE (to_sql (b_fullName b)) (full_name u);
     u_role := COALESCE (to_sql (b_role b)) (u_role u);
     is_active := COALESCE (to_sql (b_isActive b)) (is_active u);
     u_created_at := u_created_at u |}.

(** [UPDATE users SET ... WHERE id=$4] *)
Definition update_user (b : Body) (id : string) (db : DB) : DB :=
  set_users
    (map (fun u => if String.eqb (u_id u) id then updated_user b u else u)
         (users db))
    db.

(** [DELETE FROM users WHERE id=$1 AND tenant_id=$2] *)
Definition delete_user_in_tenant (id : string) (tid : option string) (db : DB) : DB :=
  set_users
    (filter (fun u => negb (String.eqb (u_id u) id && sql_eq (u_tenant_id u) tid))
            (users db))
    db.

(** [DELETE FROM users WHERE id=$1] *)
Definition delete_user (id : string) (db : DB) : DB :=
  set_users (filter (fun u => negb (String.eqb (u_id u) id)) (users db)) db.

(** [UPDATE tasks SET assigned_to=NULL WHERE assigned_to=$1] *)
Definition unassign_tasks (id : string) (db : DB) : DB :=
  set_tasks
    (map (fun k =>
            if sql_eq (assigned_to k) (Some id) then
              {| k_id := k_id k; project_id := project_id k;
                 k_status := k_status k; assigned_to := None |}
            else k)
         (tasks db))
    db.

(** Modelled from the spec: [utils/auditLogger] is not among the sources.
    [auditLog(entry)] is the audit log's [append(entry)]: one row, with the
    fields of the object passed, is added to [audit_logs]. *)
Definition auditLog (e : AuditEntry) : DB -> DB * unit :=
  EXEC (fun db => set_audit_logs (audit_logs db ++ [e]) db).

Definition audit (req : Request) (action etype eid : string) : AuditEntry :=
  {| a_tenantId := tenantId req; a_userId := userId (user req);
     a_action := action; a_entityType := etype; a_entityId := eid;
     a_ip := ip req |}.

(** Reading a property of [rows[0]] when the query returned no row. *)
Definition TypeError (prop : string) : string :=
  "Cannot read properties of undefined (reading '" ++ prop ++ "')".

Definition ok (m : string) : Outcome := Sent (json 200 true m).
Definition deny (s : nat) (m : string) : Outcome := Sent (json s false m).

(** ** Project routes *)

Section ProjectRoutes.
Variable env : Env.

Definition new_project (req : Request) : ProjectRow :=
  {| p_id := uuidv4 env; p_tenant_id := tenantId req;
     p_name := to_sql (b_name (body req));
     p_description := to_sql (or_default "" (b_description (body req)));
     p_status := to_sql (or_default "active" (b_status (body req)));
     created_by := userId (user req);
     p_created_at := NOW env; updated_at := NOW env |}.

(** [router.post("/", auth, tenantGuard, ...)]: CREATE PROJECT *)
Definition create_project_handler (req : Request) : Prog :=
  let! count := await SELECT (count_projects (tenantId req)) in
  let! tenantRes := await SELECT (tenant_row (tenantId req)) in
  match tenantRes with
  | None => Done (Rejected (TypeError "max_projects"))
  | Some t =>
      if Nat.leb (max_projects t) count then
        Done (deny 403 "Project limit reached")
      else
        await! EXEC (fun db => set_projects (projects db ++ [new_project req]) db) ;;
        await! auditLog (audit req "CREATE_PROJECT" "project" (uuidv4 env)) ;;
        Done (Sent {| status := 201; success := true;
                      message := Some "Project created";
                      data := NewId (uuidv4 env) |})
  end.

Definition create_project : Request -> Prog :=
  chain [tenantGuard] create_project_handler.

(** [UPDATE projects SET name = COALESCE($1, name), ..., updated_at = NOW()
     WHERE id = $4] *)
Definition update_project_row (b : Body) (id : string) (db : DB) : DB :=
  set_projects
    (map (fun p =>
            if String.eqb (p_id p) id then
              {| p_id := p_id p; p_tenant_id := p_tenant_id p;
                 p_name := COALESCE (to_sql (b_name b)) (p_name p);
                 p_description := COALESCE (to_sql (b_description b)) (p_description p);
                 p_status := COALESCE (to_sql (b_status b)) (p_status p);
                 created_by := created_by p;
                 p_created_at := p_created_at p; updated_at := NOW env |}
            else p)
         (projects db))
    db.

(** API 14, [router.put("/projects/:projectId", auth, tenantGuard, ...)] *)
Definition update_project_handler (req : Request) : Prog :=
  let! projectRes :=
    await SELECT (project_in_tenant (p_projectId (params req)) (tenantId req)) in
  match projectRes with
  | None => Done (deny 404 "Project not found")
  | Some project =>
      if negb (String.eqb (role (user req)) "tenant_admin")
         && negb (String.eqb (created_by project) (userId (user req)))
      then Done (deny 403 "Forbidden")
      else
        await! EXEC (update_project_row (body req) (p_id project)) ;;
        await! auditLog (audit req "UPDATE_PROJECT" "project" (p_id project)) ;;
        Done (Sent {| status := 200; success := true;
                      message := Some "Project updated successfully";
                      data := ProjectData (p_id project)
                                (nullish (b_name (body req)) (p_name project))
                                (nullish (b_description (body req)) (p_description project))
                                (nullish (b_status (body req)) (p_status project)) |})
  end.

Definition update_project : Request -> Prog :=
  chain [tenantGuard] update_project_handler.

End ProjectRoutes.

(** [DELETE FROM projects WHERE id=$1].  The README's database notes say
    that project deletion cascades to tasks: the tasks of the project go
    with it. *)
Definition delete_project_row (id : string) (db : DB) : DB :=
  set_tasks
    (filter (fun k => negb (String.eqb (project_id k) id)) (tasks db))
    (set_projects (filter (fun p => negb (String.eqb (p_id p) id)) (projects db))
                  db).

(** API 15, [router.delete("/projects/:projectId", auth, tenantGuard, ...)] *)
Definition delete_project_handler (req : Request) : Prog :=
  let! projectRes :=
    await SELECT (project_in_tenant (p_projectId (params req)) (tenantId req)) in
  match projectRes with
  | None => Done (deny 404 "Project not found")
  | Some project =>
      if negb (String.eqb (role (user req)) "tenant_admin")
         && negb (String.eqb (created_by project) (userId (user req)))
      then Done (deny 403 "Forbidden")
      else
        await! EXEC (delete_project_row (p_id project)) ;;
        await! auditLog (audit req "DELETE_PROJECT" "project" (p_id project)) ;;
        Done (ok "Project deleted successfully")
  end.

Definition delete_project : Request -> Prog :=
  chain [tenantGuard] delete_project_handler.

(** ** User routes *)

Section UserRoutes.
Variable env : Env.

(** [middleware/requireRole] is not among the sources: [requireRole(r)] is
    taken as any middleware, and every statement about a route that mounts
    it holds whatever it answers. *)
Variable requireRole : string -> Middleware.

(** The row of [INSERT INTO users (id, tenant_id, email, password_hash,
    full_name, role)]; [is_active] and [created_at], which the statement
    does not list, take their column defaults. *)
Definition new_user (tid : option string) (hash : string) (b : Body) : UserRow :=
  {| u_id := uuidv4 env; u_tenant_id := tid; email := b_email b;
     password_hash := hash; full_name := to_sql (b_fullName b);
     u_role := to_sql (or_default "user" (b_role b));
     is_active := Some true; u_created_at := NOW env |}.

(** The row of an INSERT that violates no constraint.  The README names a
    unique constraint on (tenant_id, email); what is stated of a successful
    INSERT is stated for an e-mail that no user of the tenant holds. *)
Definition insert_user (u : UserRow) (db : DB) : DB :=
  set_users (users db ++ [u]) db.

(** [await bcrypt.hash(password, 10)]: a suspension with no query. *)
Definition hash_password (b : Body) : DB -> DB * string :=
  SELECT (fun _ => bcrypt_hash env (b_password b) 10).

(** ADD USER, [router.post("/tenants/:tenantId/users", auth,
    requireRole("tenant_admin"), tenantGuard, ...)], registered first. *)
Definition add_user_handler (req : Request) : Prog :=
  if negb (strict_eq (p_tenantId (params req)) (tenantId req)) then
    Done (deny 403 "Cross-tenant access denied")
  else
    let! count := await SELECT (count_users (tenantId req)) in
    let! tenantRes := await SELECT (tenant_row (tenantId req)) in
    match tenantRes with
    | None => Done (Rejected (TypeError "max_users"))
    | Some t =>
        if Nat.leb (max_users t) count then
          Done (deny 403 "Subscription limit reached")
        else
          let! hash := await hash_password (body req) in
          await! EXEC (insert_user (new_user (tenantId req) hash (body req))) ;;
          await! auditLog (audit req "CREATE_USER" "user" (uuidv4 env)) ;;
          Done (Sent (json 201 true "User created"))
    end.

Definition add_user : Request -> Prog :=
  chain [requireRole "tenant_admin"; tenantGuard] add_user_handler.

(** LIST USERS, [router.get("/tenants/:tenantId/users", auth, tenantGuard,
    ...)], registered first. *)
Definition list_users_handler (req : Request) : Prog :=
  if negb (strict_eq (p_tenantId (params req)) (tenantId req))
     && negb (String.eqb (role (user req)) "super_admin")
  then Done (deny 403 "Forbidden")
  else
    let! rows := await SELECT (users_of_tenant (tenantId req)) in
    Done (Sent {| status := 200; success := true; message := None;
                  data := Rows rows |}).

Definition list_users : Request -> Prog :=
  chain [tenantGuard] list_users_handler.

(** UPDATE USER, [router.put("/users/:userId", auth, tenantGuard, ...)],
    registered first. *)
Definition update_user_handler (req : Request) : Prog :=
  let! userRes := await SELECT (user_by_id (p_userId (params req))) in
  match userRes with
  | None => Done (deny 404 "User not found")
  | Some target =>
      if negb (String.eqb (role (user req)) "tenant_admin")
         && negb (String.eqb (userId (user req)) (u_id target))
      then Done (deny 403 "Forbidden")
      else
        await! EXEC (update_user (body req) (u_id target)) ;;
        await! auditLog (audit req "UPDATE_USER" "user" (u_id target)) ;;
        Done (ok "User updated")
  end.

Definition update_user_route : Request -> Prog :=
  chain [tenantGuard] update_user_handler.

(** DELETE USER, [router.delete("/users/:userId", auth,
    requireRole("tenant_admin"), tenantGuard, ...)], registered first. *)
Definition delete_user_handler (req : Request) : Prog :=
  if String.eqb (userId (user req)) (p_userId (params req)) then
    Done (deny 403 "Cannot delete yourself")
  else
    await! EXEC (delete_user_in_tenant (p_userId (params req)) (tenantId req)) ;;
    await! auditLog (audit req "DELETE_USER" "user" (p_userId (params req))) ;;
    Done (ok "User deleted").

Definition delete_user_route : Request -> Prog :=
  chain [requireRole "tenant_admin"; tenantGuard] delete_user_handler.

(** API 8, the second [router.post("/tenants/:tenantId/users", auth,
    tenantGuard, ...)].  Its body is inside [try]: the [TypeError] is caught
    and answered with 500. *)
Definition api8_handler (req : Request) : Prog :=
  if negb (String.eqb (role (user req)) "tenant_admin") then
    Done (deny 403 "Forbidden")
  else
    let! tenantRes := await SELECT (tenant_row (Some (p_tenantId (params req)))) in
    let! count := await SELECT (count_users (Some (p_tenantId (params req)))) in
    match tenantRes with
    | None => Done (deny 500 (TypeError "max_users"))
    | Some t =>
        if Nat.leb (max_users t) count then
          Done (deny 403 "Subscription limit reached")
        else
          let! passwordHash := await hash_password (body req) in
          await! EXEC (insert_user
                         (new_user (Some (p_tenantId (params req))) passwordHash
                                   (body req))) ;;
          Done (Sent {| status := 201; success := true;
                        message := Some "User created successfully";
                        data := NewUser (uuidv4 env) (b_email (body req))
                                  (b_fullName (body req))
                                  (or_default "user" (b_role (body req))) |})
    end.

Definition api8_add_user : Request -> Prog :=
  chain [tenantGuard] api8_handler.

(** API 9, the second [router.get("/tenants/:tenantId/users", ...)] *)
Definition api9_handler (req : Request) : Prog :=
  let! rows := await SELECT (users_of_tenant (Some (p_tenantId (params req)))) in
  Done (Sent {| status := 200; success := true; message := None;
                data := UsersTotal rows (length rows) |}).

Definition api9_list_users : Request -> Prog :=
  chain [tenantGuard] api9_handler.

(** API 10, the second [router.put("/users/:userId", ...)] *)
Definition api10_handler (req : Request) : Prog :=
  let! userRes := await SELECT (user_by_id (p_userId (params req))) in
  match userRes with
  | None => Done (deny 404 "User not found")
  | Some row =>
      (* Tenant isolation *)
      if negb (String.eqb (role (user req)) "super_admin")
         && negb (strict_eq_null (u_tenant_id row) (tenantId req))
      then Done (deny 403 "Forbidden")
      (* Permission check *)
      else if (defined (b_role (body req)) || defined (b_isActive (body req)))
              && negb (String.eqb (role (user req)) "tenant_admin")
      then Done (deny 403 "Not authorized")
      else
        await! EXEC (update_user (body req) (p_userId (params req))) ;;
        Done (ok "User updated successfully")
  end.

Definition api10_update_user : Request -> Prog :=
  chain [tenantGuard] api10_handler.

(** API 11, the second [router.delete("/users/:userId", ...)] *)
Definition api11_handler (req : Request) : Prog :=
  if negb (String.eqb (role (user req)) "tenant_admin") then
    Done (deny 403 "Forbidden")
  else if String.eqb (p_userId (params req)) (userId (user req)) then
    Done (deny 403 "Cannot delete yourself")
  else
    let! userRes := await SELECT (user_by_id (p_userId (params req))) in
    match userRes with
    | None => Done (deny 404 "User not found")
    | Some row =>
        if negb (strict_eq_null (u_tenant_id row) (tenantId req)) then
          Done (deny 403 "Forbidden")
        else
          (* Unassign tasks *)
          await! EXEC (unassign_tasks (p_userId (params req))) ;;
          (* Delete user *)
          await! EXEC (delete_user (p_userId (params req))) ;;
          Done (ok "User deleted successfully")
    end.

Definition api11_delete_user : Request -> Prog :=
  chain [tenantGuard] api11_handler.

End UserRoutes.

(** ** Project reads

    GET /:projectId and API 13 only read.  Their answers carry payloads of
    their own, so they are given as functions of the database that return
    the JSON sent. *)

Record Reply (A : Type) := {
  r_status : nat;
  r_success : bool;
  r_message : option string;
  r_data : option A
}.
Arguments r_status {A}.
Arguments r_success {A}.
Arguments r_message {A}.
Arguments r_data {A}.

(** A middleware in front of a reading handler. *)
Definition guarded {A} (m : Middleware) (h : Request -> DB -> Reply A)
           (req : Request) (db : DB) : Reply A :=
  match m req with
  | Some r => {| r_status := status r; r_success := success r;
                 r_message := message r; r_data := None |}
  | None => h req db
  end.

(** The columns [p.id, p.name, p.description, p.status, p.created_at,
    u.full_name AS created_by]. *)
Record ProjectDetail := {
  d_id : string;
  d_name : option string;
  d_description : option string;
  d_status : option string;
  d_created_at : nat;
  d_created_by : option string
}.

(** [JOIN users u ON u.id = p.created_by] *)
Definition creators (p : ProjectRow) (db : DB) : list UserRow :=
  filter (fun u => String.eqb (u_id u) (created_by p)) (users db).

Definition detail (p : ProjectRow) (u : UserRow) : ProjectDetail :=
  {| d_id := p_id p; d_name := p_name p; d_description := p_description p;
     d_status := p_status p; d_created_at := p_created_at p;
     d_created_by := full_name u |}.

(** [SELECT ... FROM projects p JOIN users u ON u.id = p.created_by
     WHERE p.id=$1 AND p.tenant_id=$2] *)
Definition project_details (id : string) (tid : option string) (db : DB)
  : list ProjectDetail :=
  flat_map (fun p => map (detail p) (creators p db))
           (filter (fun p => String.eqb (p_id p) id && sql_eq (p_tenant_id p) tid)
                   (projects db)).

(** GET SINGLE PROJECT, [router.get("/:projectId", auth, tenantGuard, ...)] *)
Definition get_project_handler (req : Request) (db : DB) : Reply ProjectDetail :=
  match project_details (p_projectId (params req)) (tenantId req) db with
  | [] => {| r_status := 404; r_success := false;
             r_message := Some "Project not found"; r_data := None |}
  | row :: _ => {| r_status := 200; r_success := true; r_message := None;
                   r_data := Some row |}
  end.

Definition get_project : Request -> DB -> Reply ProjectDetail :=
  guarded tenantGuard get_project_handler.

(** [req.query] of API 13: [status] and [search] are absent or strings,
    [page] and [limit] absent or integer numerals.  The handler computes
    with them as JavaScript numbers and PostgreSQL reads LIMIT and OFFSET as
    [bigint]: the integers below agree with both up to
    [Number.MAX_SAFE_INTEGER]. *)
Record ListQuery := {
  q_status : option string;
  q_search : option string;
  q_page : option Z;
  q_limit : option Z
}.

(** One element of [data.projects]. *)
Record ProjectItem := {
  i_id : string;
  i_name : option string;
  i_description : option string;
  i_status : option string;
  i_createdAt : nat;
  i_creator_id : string;
  i_creator_fullName : option string;
  taskCount : nat;
  completedTaskCount : nat
}.

Record Pagination := {
  currentPage : Z;
  totalPages : option Z;
  limit : Z
}.

Record ProjectsPage := {
  page_projects : list ProjectItem;
  total : nat;
  pagination : Pagination
}.

(** [COUNT(t.id)] over [LEFT JOIN tasks t ON t.project_id = p.id] *)
Definition task_count (pid : string) (db : DB) : nat :=
  length (filter (fun k => String.eqb (project_id k) pid) (tasks db)).

(** [COUNT(CASE WHEN t.status = 'completed' THEN 1 END)] *)
Definition completed_task_count (pid : string) (db : DB) : nat :=
  length (filter (fun k => String.eqb (project_id k) pid
                           && String.eqb (k_status k) "completed")
                 (tasks db)).

Definition item (db : DB) (p : ProjectRow) (u : UserRow) : ProjectItem :=
  {| i_id := p_id p; i_name := p_name p; i_description := p_description p;
     i_status := p_status p; i_createdAt := p_created_at p;
     i_creator_id := u_id u; i_creator_fullName := full_name u;
     taskCount := task_count (p_id p) db;
     completedTaskCount := completed_task_count (p_id p) db |}.

(** [ORDER BY p.created_at DESC], by insertion. *)
Fixpoint insert_newest (x : ProjectItem) (l : list ProjectItem) : list ProjectItem :=
  match l with
  | [] => [x]
  | y :: l' =>
      if Nat.leb (i_createdAt y) (i_createdAt x) then x :: l
      else y :: insert_newest x l'
  end.

Definition order_newest (l : list ProjectItem) : list ProjectItem :=
  fold_right insert_newest [] l.

(** [Math.ceil(count / limit)] as it is serialised: a division by zero gives
    [Infinity] or [NaN], which JSON writes as null.  The quotient of the
    doubles is the exact ceiling for counts below 2^53. *)
Definition Math_ceil_div (count : nat) (lim : Z) : option Z :=
  if Z.eqb lim 0 then None
  else Some ((Z.of_nat count + lim - 1) / lim)%Z.

Section ProjectList.

(** PostgreSQL's [ILIKE] (string, pattern) and the message of the error it
    raises for a negative LIMIT or OFFSET are taken as given. *)
Variable ILIKE : string -> string -> bool.
Variable pg_error : Z -> Z -> string.

(** [WHERE p.tenant_id = $1], with [AND p.status = $n] and
    [AND p.name ILIKE $n] when [status] and [search] are truthy. *)
Definition listed (q : ListQuery) (tid : option string) (p : ProjectRow) : bool :=
  sql_eq (p_tenant_id p) tid
  && (if falsy (q_status q) then true else sql_eq (p_status p) (q_status q))
  && (if falsy (q_search q) then true
      else match p_name p, q_search q with
           | Some n, Some s => ILIKE n ("%" ++ s ++ "%")
           | _, _ => false
           end).

(** The grouped and ordered rows of [projectsQuery], before LIMIT and OFFSET. *)
Definition project_rows (q : ListQuery) (tid : option string) (db : DB)
  : list ProjectItem :=
  order_newest
    (flat_map (fun p => map (item db p) (creators p db))
              (filter (listed q tid) (projects db))).

(** API 13, [router.get("/projects", auth, tenantGuard, ...)].  A negative
    LIMIT or OFFSET makes the query throw, which the [catch] answers 500. *)
Definition list_projects_handler (q : ListQuery) (req : Request) (db : DB)
  : Reply ProjectsPage :=
  let page := match q_page q with Some n => n | None => 1%Z end in
  let lim := match q_limit q with Some n => n | None => 20%Z end in
  let offset := ((page - 1) * lim)%Z in
  if Z.ltb offset 0 || Z.ltb lim 0 then
    {| r_status := 500; r_success := false;
       r_message := Some (pg_error lim offset); r_data := None |}
  else
    {| r_status := 200; r_success := true; r_message := None;
       r_data :=
         Some {| page_projects :=
                   firstn (Z.to_nat lim)
                          (skipn (Z.to_nat offset)
                                 (project_rows q (tenantId req) db));
                 total := count_projects (tenantId req) db;
                 pagination :=
                   {| currentPage := page;
                      totalPages :=
                        Math_ceil_div (count_projects (tenantId req) db) lim;
                      limit := lim |} |} |}.

Definition list_projects (q : ListQuery) : Request -> DB -> Reply ProjectsPage :=
  guarded tenantGuard (list_projects_handler q).

End ProjectList.

(** ** Requests in flight

    Node.js runs one handler until its next [await], then may resume any other
    suspended request.  A pool of requests advances under a schedule that
    names, at each turn, the request whose pending query the database executes
    and whose code then runs up to its next [await]. *)

Definition resume (p : Prog) (db : DB) : DB * Prog :=
  match p with
  | Done o => (db, Done o)
  | Await q k => let (db', a) := q db in (db', k a)
  end.

Fixpoint replace {A} (i : nat) (x : A) (l : list A) : list A :=
  match l, i with
  | [], _ => []
  | _ :: l', O => x :: l'
  | y :: l', S j => y :: replace j x l'
  end.

Fixpoint interleave (schedule : list nat) (pool : list Prog) (db : DB)
  : DB * list Prog :=
  match schedule with
  | [] => (db, pool)
  | i :: rest =>
      match nth_error pool i with
      | None => interleave rest pool db
      | Some p =>
          let (db', p') := resume p db in
          interleave rest (replace i p' pool) db'
      end
  end.

Definition outcome (p : Prog) : option Outcome :=
  match p with
  | Done o => Some o
  | Await _ _ => None
  end.

(** The number of awaits on the path a handler takes from [db]. *)
Fixpoint awaits (p : Prog) (db : DB) : nat :=
  match p with
  | Done _ => 0
  | Await q k => let (db', a) := q db in S (awaits (k a) db')
  end.

(** * Properties *)

(** ** The await semantics *)

(** Scheduling a single request until it ends is [run]. *)
Lemma interleave_alone (p : Prog) (db : DB) :
  interleave (repeat 0 (awaits p db)) [p] db =
  (fst (run p db), [Done (snd (run p db))]).
Proof.
  revert db.
  induction p as [o | A q k IH]; intro db; simpl.
  - reflexivity.
  - destruct (q db) as [db' a] eqn:E. simpl. rewrite E. apply IH.
Qed.

Lemma chain_pass (m : Middleware) (h : Request -> Prog) (req : Request) :
  m req = None -> chain [m] h req = h req.
Proof. intro H. simpl. now rewrite H. Qed.

Lemma chain_answer (m : Middleware) (ms : list Middleware)
      (h : Request -> Prog) (req : Request) (r : Response) :
  m req = Some r -> chain (m :: ms) h req = Done (Sent r).
Proof. intro H. simpl. now rewrite H. Qed.

(** ** tenantGuard *)

Lemma tenantGuard_bound (req : Request) :
  role (user req) <> "super_admin" ->
  falsy (tenantId req) = false ->
  tenantGuard req = None.
Proof.
  intros Hrole Hten. unfold tenantGuard.
  destruct (String.eqb_spec (role (user req)) "super_admin") as [E | _].
  - contradiction.
  - now rewrite Hten.
Qed.

Lemma tenantGuard_super_admin (req : Request) :
  role (user req) = "super_admin" -> tenantGuard req = None.
Proof. intro H. unfold tenantGuard. now rewrite H. Qed.

(** ** Sample data: the seed rows and a second tenant *)

Module Demo.

Definition T1 := "11111111-1111-1111-1111-111111111111".
Definition T2 := "22222222-2222-2222-2222-222222222222".
Definition superadmin := "aaaaaaaa-aaaa-aaaa-aaaa-aaaaaaaaaaaa".
Definition admin1 := "bbbbbbbb-bbbb-bbbb-bbbb-bbbbbbbbbbbb".
Definition member1 := "cccccccc-cccc-cccc-cccc-cccccccccccc".
Definition member2 := "dddddddd-dddd-dddd-dddd-dddddddddddd".
Definition seed_hash :=
  "$2b$10$iqot4h0fsf2ikdWbaGbkjeKHOcKBg6WyRKtGrDGnBUPqJVL4p7sAu".

Definition tenant (id name sub : string) (mu mp : nat) : TenantRow :=
  {| t_id := id; t_name := name; subdomain := sub; t_status := "active";
     subscription_plan := "pro"; max_users := mu; max_projects := mp |}.

Definition user_row (id : string) (tid : option string) (mail name r : string)
  : UserRow :=
  {| u_id := id; u_tenant_id := tid; email := mail;
     password_hash := seed_hash; full_name := Some name; u_role := Some r;
     is_active := Some true; u_created_at := 0 |}.

Definition project_row (id tid name owner : string) : ProjectRow :=
  {| p_id := id; p_tenant_id := Some tid; p_name := Some name;
     p_description := Some ""; p_status := Some "active";
     created_by := owner; p_created_at := 0; updated_at := 0 |}.

Definition seed_users : list UserRow :=
  [ user_row superadmin None "superadmin@system.com" "Super Admin" "super_admin";
    user_row admin1 (Some T1) "admin@demo.com" "Demo Admin" "tenant_admin";
    user_row member1 (Some T1) "user@demo.com" "Demo User" "user";
    user_row member2 (Some T2) "user@other.com" "Other User" "user" ].

(** Tenant [T1] with ceilings [mu] and [mp], tenant [T2] as seeded. *)
Definition db (mu mp : nat) (ps : list ProjectRow) : DB :=
  {| tenants := [ tenant T1 "Demo Company" "demo" mu mp;
                  tenant T2 "Other Company" "other" 25 15 ];
     users := seed_users; projects := ps; tasks := []; audit_logs := [] |}.

Definition env (id : string) : Env :=
  {| uuidv4 := id; NOW := 1; bcrypt_hash := fun pw _ => "$2b$10$" ++ pw |}.

Definition no_body : Body :=
  {| b_email := ""; b_password := ""; b_fullName := Undefined;
     b_role := Undefined; b_isActive := Undefined; b_name := Undefined;
     b_description := Undefined; b_status := Undefined |}.

Definition no_params : Params :=
  {| p_tenantId := ""; p_userId := ""; p_projectId := "" |}.

Definition request (uid r : string) (tid : option string) (p : Params) (b : Body)
  : Request :=
  {| user := {| userId := uid; role := r |}; tenantId := tid;
     params := p; body := b; ip := "127.0.0.1" |}.

Definition project_body (name : string) : Body :=
  {| b_email := ""; b_password := ""; b_fullName := Undefined;
     b_role := Undefined; b_isActive := Undefined; b_name := Val name;
     b_description := Undefined; b_status := Undefined |}.

(** Modelled from the spec: [middleware/requireRole] is not among the
    sources.  Where section 4.3 reserves an action to one role, the
    request of an actor with that role goes on and any other is answered
    403. *)
Definition requireRole (r : string) : Middleware := fun req =>
  if String.eqb (role (user req)) r then None
  else Some (json 403 false "Forbidden").

End Demo.

(** ** Project creation *)

Lemma count_projects_insert (tid : option string) (p : ProjectRow) (db : DB) :
  count_projects tid (set_projects (projects db ++ [p]) db) =
  count_projects tid db + (if sql_eq (p_tenant_id p) tid then 1 else 0).
Proof.
  unfold count_projects. simpl. rewrite filter_app, length_app. simpl.
  now destruct (sql_eq (p_tenant_id p) tid).
Qed.

(** What the handler does once [tenantGuard] has let the request through,
    whatever the role in the claims. *)
Lemma create_project_run (env : Env) (req : Request) (db : DB) (t : TenantRow) :
  tenantGuard req = None ->
  tenant_row (tenantId req) db = Some t ->
  run (create_project env req) db =
  if Nat.leb (max_projects t) (count_projects (tenantId req) db) then
    (db, deny 403 "Project limit reached")
  else
    (set_audit_logs
       (audit_logs db ++ [audit req "CREATE_PROJECT" "project" (uuidv4 env)])
       (set_projects (projects db ++ [new_project env req]) db),
     Sent {| status := 201; success := true; message := Some "Project created";
             data := NewId (uuidv4 env) |}).
Proof.
  intros Hg Ht. unfold create_project. rewrite (chain_pass _ _ _ Hg).
  unfold create_project_handler. simpl. rewrite Ht.
  destruct (Nat.leb (max_projects t) (count_projects (tenantId req) db)); reflexivity.
Qed.

(** Run on its own, a creation request never takes a tenant that is within
    its ceiling above it. *)
Lemma create_project_keeps_ceiling (env : Env) (req : Request) (db : DB) (t : TenantRow) :
  tenantGuard req = None ->
  tenant_row (tenantId req) db = Some t ->
  count_projects (tenantId req) db <= max_projects t ->
  count_projects (tenantId req) (fst (run (create_project env req) db))
  <= max_projects t.
Proof.
  intros Hg Ht Hle. rewrite (create_project_run env req db t Hg Ht).
  destruct (Nat.leb_spec (max_projects t) (count_projects (tenantId req) db)) as [H | H].
  - exact Hle.
  - cbn [fst]. unfold count_projects in *. cbn [projects set_audit_logs set_projects].
    rewrite filter_app, length_app. simpl.
    destruct (sql_eq (tenantId req) (tenantId req)); simpl; lia.
Qed.

(** C6.  When the project count of the actor's tenant already equals
    [max_projects], a tenant_admin's creation request is answered 403
    "Project limit reached" and the database, hence the tenant's project
    rows, is left exactly as it was. *)
Theorem create_project_at_ceiling_denied
        (env : Env) (req : Request) (db : DB) (t : TenantRow) :
  role (user req) = "tenant_admin" ->
  falsy (tenantId req) = false ->
  tenant_row (tenantId req) db = Some t ->
  count_projects (tenantId req) db = max_projects t ->
  run (create_project env req) db = (db, deny 403 "Project limit reached")
  /\ projects (fst (run (create_project env req) db)) = projects db.
Proof.
  intros Hrole Hten Ht Hcount.
  assert (Hg : tenantGuard req = None).
  { apply tenantGuard_bound; [rewrite Hrole; discriminate | exact Hten]. }
  rewrite (create_project_run env req db t Hg Ht), Hcount, Nat.leb_refl.
  split; reflexivity.
Qed.

(** The scenario of two projects under a ceiling of two. *)
Lemma create_project_at_ceiling_denied_witness :
  let req := Demo.request Demo.admin1 "tenant_admin" (Some Demo.T1)
                          Demo.no_params (Demo.project_body "Third") in
  let db := Demo.db 25 2 [ Demo.project_row "p1" Demo.T1 "First" Demo.admin1;
                           Demo.project_row "p2" Demo.T1 "Second" Demo.admin1 ] in
  run (create_project (Demo.env "p3") req) db = (db, deny 403 "Project limit reached")
  /\ projects (fst (run (create_project (Demo.env "p3") req) db)) = projects db.
Proof.
  intros req db.
  apply (create_project_at_ceiling_denied (Demo.env "p3") req db
           (Demo.tenant Demo.T1 "Demo Company" "demo" 25 2));
    reflexivity.
Defined.

(** C5.  A member's creation request is not denied.  The route mounts
    [auth] and [tenantGuard] only and its handler never reads
    [req.user.role]: whenever the tenant of a "user" has room under its
    ceiling, the request is answered 201, the project row is inserted with
    the member as creator and a CREATE_PROJECT audit entry is written. *)
Theorem create_project_by_member_succeeds
        (env : Env) (req : Request) (db : DB) (t : TenantRow) :
  role (user req) = "user" ->
  falsy (tenantId req) = false ->
  tenant_row (tenantId req) db = Some t ->
  count_projects (tenantId req) db < max_projects t ->
  let db' := fst (run (create_project env req) db) in
  snd (run (create_project env req) db) =
    Sent {| status := 201; success := true; message := Some "Project created";
            data := NewId (uuidv4 env) |}
  /\ projects db' = (projects db ++ [new_project env req])%list
  /\ created_by (new_project env req) = userId (user req)
  /\ audit_logs db' =
     (audit_logs db ++ [audit req "CREATE_PROJECT" "project" (uuidv4 env)])%list.
Proof.
  intros Hrole Hten Ht Hroom.
  assert (Hg : tenantGuard req = None).
  { apply tenantGuard_bound; [rewrite Hrole; discriminate | exact Hten]. }
  cbv zeta. rewrite (create_project_run env req db t Hg Ht).
  apply Nat.leb_gt in Hroom. rewrite Hroom. repeat split.
Qed.

(** The member of tenant T1 creates the first project of the tenant. *)
Lemma create_project_by_member_succeeds_witness :
  let req := Demo.request Demo.member1 "user" (Some Demo.T1)
                          Demo.no_params (Demo.project_body "Mine") in
  let db := Demo.db 25 15 [] in
  let db' := fst (run (create_project (Demo.env "p1") req) db) in
  snd (run (create_project (Demo.env "p1") req) db) =
    Sent {| status := 201; success := true; message := Some "Project created";
            data := NewId "p1" |}
  /\ projects db' =
     [ {| p_id := "p1"; p_tenant_id := Some Demo.T1; p_name := Some "Mine";
          p_description := Some ""; p_status := Some "active";
          created_by := Demo.member1; p_created_at := 1; updated_at := 1 |} ]
  /\ created_by (new_project (Demo.env "p1") req) = Demo.member1
  /\ audit_logs db' = [audit req "CREATE_PROJECT" "project" "p1"].
Proof.
  intros req db.
  apply (create_project_by_member_succeeds (Demo.env "p1") req db
           (Demo.tenant Demo.T1 "Demo Company" "demo" 25 15));
    [reflexivity | reflexivity | reflexivity | vm_compute; lia].
Defined.

(** ** The ceiling under interleaved requests *)

Module Race.

Definition req : Request :=
  Demo.request Demo.admin1 "tenant_admin" (Some Demo.T1)
               Demo.no_params (Demo.project_body "P").

(** Two creation requests for tenant T1, which has room for one project. *)
Definition pool : list Prog :=
  [ create_project (Demo.env "p1") req; create_project (Demo.env "p2") req ].

Definition db : DB := Demo.db 25 1 [].

(** One after the other. *)
Definition in_turn : list nat := [0; 0; 0; 0; 1; 1].

(** Both count, both read the ceiling and compare, then both insert. *)
Definition racing : list nat := [0; 1; 0; 1; 0; 1; 0; 1].

End Race.

(** Served in turn, the first request gets the slot and the second 403. *)
Lemma create_project_in_turn :
  map outcome (snd (interleave Race.in_turn Race.pool Race.db)) =
    [ Some (Sent {| status := 201; success := true;
                    message := Some "Project created"; data := NewId "p1" |});
      Some (deny 403 "Project limit reached") ]
  /\ count_projects (Some Demo.T1) (fst (interleave Race.in_turn Race.pool Race.db)) = 1.
Proof. split; reflexivity. Qed.

(** C3.  The count and the insert are two separate queries with an [await]
    between them.  Take a tenant with exactly one slot left under its ceiling
    and two creation requests suspended after their count: both read the same
    count, both pass the comparison and both insert.  Both are answered 201,
    none 403, and the tenant ends one project above its ceiling. *)
Theorem create_project_race_exceeds_ceiling
        (env1 env2 : Env) (req1 req2 : Request) (db : DB) (t : TenantRow) :
  tenantGuard req1 = None ->
  tenantGuard req2 = None ->
  tenantId req2 = tenantId req1 ->
  tenant_row (tenantId req1) db = Some t ->
  S (count_projects (tenantId req1) db) = max_projects t ->
  let final := interleave Race.racing
                 [create_project env1 req1; create_project env2 req2] db in
  map outcome (snd final) =
    [ Some (Sent {| status := 201; success := true;
                    message := Some "Project created";
                    data := NewId (uuidv4 env1) |});
      Some (Sent {| status := 201; success := true;
                    message := Some "Project created";
                    data := NewId (uuidv4 env2) |}) ]
  /\ count_projects (tenantId req1) (fst final) = S (max_projects t)
  /\ tenant_row (tenantId req1) (fst final) = Some t.
Proof.
  intros Hg1 Hg2 Hsame Ht Hslot.
  assert (Hself : sql_eq (tenantId req1) (tenantId req1) = true).
  { unfold tenant_row in Ht. apply find_some in Ht as [_ Ht].
    destruct (tenantId req1) as [s |]; simpl in *; [apply String.eqb_refl | discriminate]. }
  assert (Hroom : Nat.leb (max_projects t) (count_projects (tenantId req1) db) = false).
  { apply Nat.leb_gt. lia. }
  unfold create_project. rewrite (chain_pass _ _ _ Hg1), (chain_pass _ _ _ Hg2).
  unfold create_project_handler. rewrite Hsame.
  cbn [Race.racing interleave nth_error resume replace SELECT]. rewrite Ht, Hroom.
  cbn [interleave nth_error resume replace SELECT EXEC auditLog fst snd map outcome].
  split; [reflexivity | split].
  - rewrite <- Hslot. unfold count_projects.
    cbn [projects set_projects set_audit_logs].
    rewrite !filter_app, !length_app. cbn [filter].
    change (p_tenant_id (new_project env1 req1)) with (tenantId req1).
    change (p_tenant_id (new_project env2 req2)) with (tenantId req2).
    rewrite Hsame, Hself. simpl. lia.
  - exact Ht.
Qed.

(** Ceiling K = 1 and N = 2 requests: two projects are committed. *)
Lemma create_project_race_exceeds_ceiling_witness :
  let final := interleave Race.racing Race.pool Race.db in
  map outcome (snd final) =
    [ Some (Sent {| status := 201; success := true;
                    message := Some "Project created"; data := NewId "p1" |});
      Some (Sent {| status := 201; success := true;
                    message := Some "Project created"; data := NewId "p2" |}) ]
  /\ count_projects (Some Demo.T1) (fst final) = 2
  /\ tenant_row (Some Demo.T1) (fst final)
     = Some (Demo.tenant Demo.T1 "Demo Company" "demo" 25 1).
Proof.
  apply (create_project_race_exceeds_ceiling (Demo.env "p1") (Demo.env "p2")
           Race.req Race.req Race.db
           (Demo.tenant Demo.T1 "Demo Company" "demo" 25 1));
    reflexivity.
Defined.

(** ** Updating a user *)

Definition rename_body (name : jsfield string) (r : jsfield string)
           (active : jsfield bool) : Body :=
  {| b_email := ""; b_password := ""; b_fullName := name; b_role := r;
     b_isActive := active; b_name := Undefined; b_description := Undefined;
     b_status := Undefined |}.

Definition on_user (id : string) : Params :=
  {| p_tenantId := ""; p_userId := id; p_projectId := "" |}.

(** The first-registered handler looks the target up by id alone and then
    only asks whether the actor is a tenant_admin or the target itself. *)
Lemma update_user_route_run (req : Request) (db : DB) (target : UserRow) :
  tenantGuard req = None ->
  user_by_id (p_userId (params req)) db = Some target ->
  run (update_user_route req) db =
  if negb (String.eqb (role (user req)) "tenant_admin")
     && negb (String.eqb (userId (user req)) (u_id target))
  then (db, deny 403 "Forbidden")
  else (set_audit_logs
          (audit_logs db ++ [audit req "UPDATE_USER" "user" (u_id target)])
          (update_user (body req) (u_id target) db),
        ok "User updated").
Proof.
  intros Hg Hu. unfold update_user_route. rewrite (chain_pass _ _ _ Hg).
  unfold update_user_handler. simpl. rewrite Hu.
  destruct (negb (String.eqb (role (user req)) "tenant_admin")
            && negb (String.eqb (userId (user req)) (u_id target))); reflexivity.
Qed.

(** API 10 compares the target's tenant with the claims' tenant first, and
    then refuses role and active-state changes to all but a tenant_admin. *)
Lemma api10_update_user_run (req : Request) (db : DB) (row : UserRow) :
  tenantGuard req = None ->
  user_by_id (p_userId (params req)) db = Some row ->
  run (api10_update_user req) db =
  if negb (String.eqb (role (user req)) "super_admin")
     && negb (strict_eq_null (u_tenant_id row) (tenantId req))
  then (db, deny 403 "Forbidden")
  else if (defined (b_role (body req)) || defined (b_isActive (body req)))
          && negb (String.eqb (role (user req)) "tenant_admin")
  then (db, deny 403 "Not authorized")
  else (update_user (body req) (p_userId (params req)) db,
        ok "User updated successfully").
Proof.
  intros Hg Hu. unfold api10_update_user. rewrite (chain_pass _ _ _ Hg).
  unfold api10_handler. simpl. rewrite Hu.
  destruct (negb (String.eqb (role (user req)) "super_admin")
            && negb (strict_eq_null (u_tenant_id row) (tenantId req))); [reflexivity |].
  destruct ((defined (b_role (body req)) || defined (b_isActive (body req)))
            && negb (String.eqb (role (user req)) "tenant_admin")); reflexivity.
Qed.

Lemma strict_eq_null_false (a b : option string) :
  a <> b -> strict_eq_null a b = false.
Proof.
  destruct a as [x |], b as [y |]; simpl; intro H; try reflexivity.
  - destruct (String.eqb_spec x y); [subst; contradiction | reflexivity].
  - contradiction.
Qed.

(** API 10 keeps tenants apart: a target of another tenant is refused with
    403 "Forbidden" before the permission check, and nothing is written. *)
Lemma api10_other_tenant_denied (req : Request) (db : DB) (row : UserRow) :
  role (user req) <> "super_admin" ->
  falsy (tenantId req) = false ->
  user_by_id (p_userId (params req)) db = Some row ->
  u_tenant_id row <> tenantId req ->
  run (api10_update_user req) db = (db, deny 403 "Forbidden").
Proof.
  intros Hrole Hten Hu Hdiff.
  rewrite (api10_update_user_run req db row (tenantGuard_bound req Hrole Hten) Hu).
  rewrite (strict_eq_null_false _ _ Hdiff).
  destruct (String.eqb_spec (role (user req)) "super_admin"); [contradiction | reflexivity].
Qed.

Lemma user_by_id_found (id : string) (db : DB) (u : UserRow) :
  user_by_id id db = Some u -> u_id u = id.
Proof.
  intro H. apply find_some in H as [_ H]. now apply String.eqb_eq in H.
Qed.

Lemma user_by_id_update_user (b : Body) (id : string) (db : DB) :
  user_by_id id (update_user b id db) =
  option_map (updated_user b) (user_by_id id db).
Proof.
  unfold user_by_id, update_user. cbn [users set_users].
  induction (users db) as [| u l IH]; simpl; [reflexivity |].
  destruct (String.eqb (u_id u) id) eqn:E; simpl.
  - now rewrite E.
  - now rewrite E.
Qed.

(** C1.  The first-registered PUT /users/:userId never compares the target's
    [tenant_id] with [req.tenantId].  For a tenant_admin and a target user of
    another tenant the answer is 200 "User updated": the row of the other
    tenant is rewritten with the fields of the body and an UPDATE_USER audit
    entry is written. *)
Theorem update_user_route_crosses_tenants
        (req : Request) (db : DB) (target : UserRow) :
  role (user req) = "tenant_admin" ->
  falsy (tenantId req) = false ->
  user_by_id (p_userId (params req)) db = Some target ->
  u_tenant_id target <> tenantId req ->
  let db' := fst (run (update_user_route req) db) in
  snd (run (update_user_route req) db) = ok "User updated"
  /\ user_by_id (p_userId (params req)) db' = Some (updated_user (body req) target)
  /\ audit_logs db' =
     (audit_logs db ++ [audit req "UPDATE_USER" "user" (u_id target)])%list.
Proof.
  intros Hrole Hten Hu _.
  assert (Hg : tenantGuard req = None).
  { apply tenantGuard_bound; [rewrite Hrole; discriminate | exact Hten]. }
  cbv zeta. rewrite (update_user_route_run req db target Hg Hu), Hrole. simpl.
  repeat split.
  unfold user_by_id. cbn [users set_audit_logs]. fold (user_by_id (p_userId (params req))
    (update_user (body req) (u_id target) db)).
  rewrite (user_by_id_found _ _ _ Hu), user_by_id_update_user. now rewrite Hu.
Qed.

(** The tenant_admin of T1 renames and deactivates a user of T2. *)
Lemma update_user_route_crosses_tenants_witness :
  let req := Demo.request Demo.admin1 "tenant_admin" (Some Demo.T1)
               (on_user Demo.member2)
               (rename_body (Val "Renamed") Undefined (Val false)) in
  let db := Demo.db 25 15 [] in
  let target := Demo.user_row Demo.member2 (Some Demo.T2) "user@other.com"
                              "Other User" "user" in
  let db' := fst (run (update_user_route req) db) in
  (u_tenant_id target = Some Demo.T2
   /\ tenantId req = Some Demo.T1
   /\ full_name (updated_user (body req) target) = Some "Renamed"
   /\ is_active (updated_user (body req) target) = Some false)
  /\ snd (run (update_user_route req) db) = ok "User updated"
  /\ user_by_id Demo.member2 db' = Some (updated_user (body req) target)
  /\ audit_logs db' = [audit req "UPDATE_USER" "user" Demo.member2].
Proof.
  intros req db target. split; [repeat split |].
  apply (update_user_route_crosses_tenants req db target);
    [reflexivity | reflexivity | reflexivity | discriminate].
Defined.

(** C2.  The first-registered PUT /users/:userId has no check on the fields
    supplied.  An actor who is neither tenant_admin nor super_admin, acting on
    their own record and supplying a role, is answered 200 "User updated" and
    the record takes the role supplied. *)
Theorem update_user_route_self_promotion
        (req : Request) (db : DB) (row : UserRow) (r : string) :
  role (user req) <> "tenant_admin" ->
  role (user req) <> "super_admin" ->
  falsy (tenantId req) = false ->
  user_by_id (p_userId (params req)) db = Some row ->
  u_id row = userId (user req) ->
  b_role (body req) = Val r ->
  let db' := fst (run (update_user_route req) db) in
  snd (run (update_user_route req) db) = ok "User updated"
  /\ option_map u_role (user_by_id (p_userId (params req)) db') = Some (Some r).
Proof.
  intros _ Hsuper Hten Hu Hown Hr.
  pose proof (tenantGuard_bound req Hsuper Hten) as Hg.
  cbv zeta. rewrite (update_user_route_run req db row Hg Hu).
  rewrite Hown, String.eqb_refl, andb_false_r. split; [reflexivity |].
  cbn [fst]. unfold user_by_id. cbn [users set_audit_logs].
  fold (user_by_id (p_userId (params req))
          (update_user (body req) (userId (user req)) db)).
  rewrite <- Hown, (user_by_id_found _ _ _ Hu), user_by_id_update_user, Hu.
  simpl. now rewrite Hr.
Qed.

(** A "user" of tenant T1 makes themself tenant_admin. *)
Lemma update_user_route_self_promotion_witness :
  let req := Demo.request Demo.member1 "user" (Some Demo.T1)
               (on_user Demo.member1)
               (rename_body Undefined (Val "tenant_admin") Undefined) in
  let db := Demo.db 25 15 [] in
  let db' := fst (run (update_user_route req) db) in
  option_map u_role (user_by_id Demo.member1 db) = Some (Some "user")
  /\ snd (run (update_user_route req) db) = ok "User updated"
  /\ option_map u_role (user_by_id Demo.member1 db') = Some (Some "tenant_admin").
Proof.
  intros req db. split; [reflexivity |].
  apply (update_user_route_self_promotion req db
           (Demo.user_row Demo.member1 (Some Demo.T1) "user@demo.com"
                          "Demo User" "user")
           "tenant_admin");
    try reflexivity; discriminate.
Defined.

(** The same request is refused by API 10, registered second for the same
    method and path. *)
Lemma api10_self_promotion_denied :
  let req := Demo.request Demo.member1 "user" (Some Demo.T1)
               (on_user Demo.member1)
               (rename_body Undefined (Val "tenant_admin") Undefined) in
  let db := Demo.db 25 15 [] in
  run (api10_update_user req) db = (db, deny 403 "Not authorized").
Proof. reflexivity. Qed.

(** In both handlers a member who supplies only [fullName] for their own
    record is answered 200 and renamed. *)
Lemma own_full_name_update_succeeds (req : Request) (db : DB) (row : UserRow) :
  role (user req) <> "super_admin" ->
  falsy (tenantId req) = false ->
  user_by_id (p_userId (params req)) db = Some row ->
  u_id row = userId (user req) ->
  u_tenant_id row = tenantId req ->
  b_role (body req) = Undefined ->
  b_isActive (body req) = Undefined ->
  snd (run (update_user_route req) db) = ok "User updated"
  /\ snd (run (api10_update_user req) db) = ok "User updated successfully".
Proof.
  intros Hrole Hten Hu Hid Htid Hr Ha.
  pose proof (tenantGuard_bound req Hrole Hten) as Hg.
  rewrite (update_user_route_run req db row Hg Hu).
  rewrite (api10_update_user_run req db row Hg Hu).
  rewrite Hid, String.eqb_refl, Htid, Hr, Ha. simpl.
  assert (E : strict_eq_null (tenantId req) (tenantId req) = true).
  { destruct (tenantId req); simpl; [apply String.eqb_refl | reflexivity]. }
  rewrite E, !andb_false_r. simpl. split; reflexivity.
Qed.

(** ** Rows of another tenant *)

Lemma sql_eq_true (a b : option string) : sql_eq a b = true -> a = b.
Proof.
  destruct a as [x |], b as [y |]; simpl; try discriminate.
  intro H. apply String.eqb_eq in H. now subst.
Qed.

Lemma filter_all {A} (f : A -> bool) (l : list A) :
  (forall x, In x l -> f x = true) -> filter f l = l.
Proof.
  induction l as [| a l IH]; intro H; simpl.
  - reflexivity.
  - rewrite (H a (or_introl eq_refl)). f_equal. apply IH.
    intros x Hx. apply H. now right.
Qed.

Lemma find_all_false {A} (f : A -> bool) (l : list A) :
  (forall x, In x l -> f x = false) -> find f l = None.
Proof.
  induction l as [| a l IH]; intro H; simpl.
  - reflexivity.
  - rewrite (H a (or_introl eq_refl)). apply IH.
    intros x Hx. apply H. now right.
Qed.

Lemma project_in_tenant_hidden (pid : string) (tid : option string) (db : DB) :
  (forall p, In p (projects db) -> p_id p = pid -> p_tenant_id p <> tid) ->
  project_in_tenant pid tid db = None.
Proof.
  intro H. apply find_all_false. intros p Hp.
  destruct (String.eqb_spec (p_id p) pid) as [E | _]; [| reflexivity].
  destruct (sql_eq (p_tenant_id p) tid) eqn:S; [| reflexivity].
  apply sql_eq_true in S. now destruct (H p Hp E).
Qed.

(** API 14 and API 15 look the project up within the claims' tenant: a
    project of another tenant is answered 404 "Project not found", before the
    role and creator check, and the database is untouched. *)
Lemma project_of_other_tenant_not_found (env : Env) (req : Request) (db : DB) :
  tenantGuard req = None ->
  (forall p, In p (projects db) -> p_id p = p_projectId (params req) ->
             p_tenant_id p <> tenantId req) ->
  run (update_project env req) db = (db, deny 404 "Project not found")
  /\ run (delete_project req) db = (db, deny 404 "Project not found").
Proof.
  intros Hg H. apply project_in_tenant_hidden in H.
  unfold update_project, delete_project. rewrite !(chain_pass _ _ _ Hg).
  unfold update_project_handler, delete_project_handler. simpl.
  rewrite H. split; reflexivity.
Qed.

Lemma delete_user_in_tenant_absent (id : string) (tid : option string) (db : DB) :
  (forall u, In u (users db) -> u_id u = id -> u_tenant_id u <> tid) ->
  delete_user_in_tenant id tid db = db.
Proof.
  intro H. unfold delete_user_in_tenant.
  rewrite filter_all; [now destruct db |].
  intros u Hu.
  destruct (String.eqb_spec (u_id u) id) as [E | _]; [| reflexivity].
  destruct (sql_eq (u_tenant_id u) tid) eqn:S; [| reflexivity].
  apply sql_eq_true in S. now destruct (H u Hu E).
Qed.

(** ** Deleting a user *)

(** C9.  The first-registered DELETE /users/:userId never looks at what its
    DELETE statement removed.  When the target id names no user of the
    tenant_admin's tenant, no row is deleted, yet a DELETE_USER audit entry is
    written and the answer is 200 "User deleted", not 404. *)
Theorem delete_user_route_absent_target
        (requireRole : string -> Middleware) (req : Request) (db : DB) :
  requireRole "tenant_admin" req = None ->
  role (user req) = "tenant_admin" ->
  falsy (tenantId req) = false ->
  userId (user req) <> p_userId (params req) ->
  (forall u, In u (users db) -> u_id u = p_userId (params req) ->
             u_tenant_id u <> tenantId req) ->
  run (delete_user_route requireRole req) db =
  (set_audit_logs
     (audit_logs db ++ [audit req "DELETE_USER" "user" (p_userId (params req))])
     db,
   ok "User deleted").
Proof.
  intros Hrr Hrole Hten Hother Habsent.
  assert (Hg : tenantGuard req = None).
  { apply tenantGuard_bound; [rewrite Hrole; discriminate | exact Hten]. }
  unfold delete_user_route. simpl. rewrite Hrr, Hg.
  unfold delete_user_handler.
  destruct (String.eqb_spec (userId (user req)) (p_userId (params req)));
    [contradiction |].
  simpl. now rewrite (delete_user_in_tenant_absent _ _ _ Habsent).
Qed.

(** The tenant_admin of T1 deletes an id that no user carries. *)
Lemma delete_user_route_absent_target_witness :
  let req := Demo.request Demo.admin1 "tenant_admin" (Some Demo.T1)
               (on_user "eeeeeeee-eeee-eeee-eeee-eeeeeeeeeeee") Demo.no_body in
  let db := Demo.db 25 15 [] in
  run (delete_user_route Demo.requireRole req) db =
  (set_audit_logs
     [audit req "DELETE_USER" "user" "eeeeeeee-eeee-eeee-eeee-eeeeeeeeeeee"] db,
   ok "User deleted").
Proof.
  intros req db.
  apply (delete_user_route_absent_target Demo.requireRole req db);
    try reflexivity.
  - discriminate.
  - intros u Hu E. simpl in Hu.
    repeat (destruct Hu as [<- | Hu]; [discriminate E |]). destruct Hu.
Defined.

(** API 11, registered second, answers 404 for an id that names no user and
    403 for a user of another tenant, and writes nothing in either case. *)
Lemma api11_absent_target (req : Request) (db : DB) :
  role (user req) = "tenant_admin" ->
  falsy (tenantId req) = false ->
  userId (user req) <> p_userId (params req) ->
  run (api11_delete_user req) db =
  match user_by_id (p_userId (params req)) db with
  | None => (db, deny 404 "User not found")
  | Some row =>
      if strict_eq_null (u_tenant_id row) (tenantId req) then
        (delete_user (p_userId (params req))
           (unassign_tasks (p_userId (params req)) db),
         ok "User deleted successfully")
      else (db, deny 403 "Forbidden")
  end.
Proof.
  intros Hrole Hten Hother.
  assert (Hg : tenantGuard req = None).
  { apply tenantGuard_bound; [rewrite Hrole; discriminate | exact Hten]. }
  unfold api11_delete_user. rewrite (chain_pass _ _ _ Hg).
  unfold api11_handler. rewrite Hrole. simpl.
  destruct (String.eqb_spec (p_userId (params req)) (userId (user req))) as [E | _];
    [symmetry in E; contradiction |].
  simpl. destruct (user_by_id (p_userId (params req)) db) as [row |]; [| reflexivity].
  destruct (strict_eq_null (u_tenant_id row) (tenantId req)); reflexivity.
Qed.

(** API 11, registered second for the same method and path, checks the
    role before it compares the ids: a self-deletion request that passes
    [tenantGuard] is answered 403 "Cannot delete yourself" for a
    tenant_admin and 403 "Forbidden" for any other role, and nothing is
    deleted. *)
Lemma api11_self_delete (req : Request) (db : DB) :
  p_userId (params req) = userId (user req) ->
  tenantGuard req = None ->
  run (api11_delete_user req) db =
  (db, deny 403 (if String.eqb (role (user req)) "tenant_admin"
                 then "Cannot delete yourself" else "Forbidden")).
Proof.
  intros Hself Hg. unfold api11_delete_user. rewrite (chain_pass _ _ _ Hg).
  unfold api11_handler.
  destruct (String.eqb (role (user req)) "tenant_admin"); [| reflexivity].
  simpl. now rewrite Hself, String.eqb_refl.
Qed.



(** ** tenantGuard and the claims of a super_admin *)

(** C4, as stated, fails: a request whose claims pair the role super_admin
    with a tenant id is not rejected by [tenantGuard]; it calls [next()]. *)
Lemma tenantGuard_super_admin_with_tenant_counterexample :
  let req := Demo.request Demo.superadmin "super_admin" (Some Demo.T1)
               Demo.no_params Demo.no_body in
  role (user req) = "super_admin"
  /\ tenantId req <> None
  /\ tenantGuard req = None.
Proof. repeat split. discriminate. Qed.

(** C4, amended.  [tenantGuard] lets every super_admin request through
    without looking at its tenant id, with one or without; a request of any
    other role goes on when its claims carry a tenant id and is answered 403
    "Tenant access denied" when they carry none. *)
Theorem tenantGuard_decision (req : Request) :
  (role (user req) = "super_admin" -> tenantGuard req = None)
  /\ (role (user req) <> "super_admin" -> falsy (tenantId req) = false ->
      tenantGuard req = None)
  /\ (role (user req) <> "super_admin" -> falsy (tenantId req) = true ->
      tenantGuard req = Some (json 403 false "Tenant access denied")).
Proof.
  split; [apply tenantGuard_super_admin | split].
  - apply tenantGuard_bound.
  - intros Hrole F. unfold tenantGuard.
    destruct (String.eqb_spec (role (user req)) "super_admin"); [contradiction |].
    now rewrite F.
Qed.

(** A super_admin whose claims carry tenant T1 passes the guard. *)
Lemma tenantGuard_decision_witness :
  tenantGuard (Demo.request Demo.superadmin "super_admin" (Some Demo.T1)
                            Demo.no_params Demo.no_body) = None.
Proof.
  apply (proj1 (tenantGuard_decision
                  (Demo.request Demo.superadmin "super_admin" (Some Demo.T1)
                                Demo.no_params Demo.no_body))).
  reflexivity.
Defined.

(** ** Listing users *)

Lemma insert_desc_perm (u : UserRow) (l : list UserRow) :
  Permutation (insert_desc u l) (u :: l).
Proof.
  induction l as [| v l IH]; simpl.
  - apply Permutation_refl.
  - destruct (Nat.leb (u_created_at v) (u_created_at u)).
    + apply Permutation_refl.
    + eapply perm_trans; [apply perm_skip, IH | apply perm_swap].
Qed.

Lemma order_by_created_at_desc_perm (l : list UserRow) :
  Permutation (order_by_created_at_desc l) l.
Proof.
  induction l as [| u l IH]; simpl.
  - apply perm_nil.
  - eapply perm_trans; [apply insert_desc_perm | apply perm_skip, IH].
Qed.

Definition newest_first (a b : UserRow) : Prop := u_created_at b <= u_created_at a.

Lemma insert_desc_sorted (u : UserRow) (l : list UserRow) :
  Sorted newest_first l -> Sorted newest_first (insert_desc u l).
Proof.
  induction l as [| v l IH]; intro H; simpl.
  - repeat constructor.
  - destruct (Nat.leb_spec (u_created_at v) (u_created_at u)) as [Hle | Hlt].
    + constructor; [exact H | constructor; exact Hle].
    + inversion H as [| ? ? Hs Hh]; subst.
      constructor; [apply IH, Hs |].
      destruct l as [| w l]; simpl.
      * constructor. unfold newest_first. lia.
      * destruct (Nat.leb (u_created_at w) (u_created_at u)).
        -- constructor. unfold newest_first. lia.
        -- inversion Hh; subst. now constructor.
Qed.

Lemma order_by_created_at_desc_sorted (l : list UserRow) :
  Sorted newest_first (order_by_created_at_desc l).
Proof.
  induction l as [| u l IH]; simpl.
  - constructor.
  - apply insert_desc_sorted, IH.
Qed.

Lemma users_of_tenant_perm (tid : option string) (db : DB) :
  Permutation (users_of_tenant tid db)
              (map view (filter (fun u => sql_eq (u_tenant_id u) tid) (users db))).
Proof. unfold users_of_tenant. apply Permutation_map, order_by_created_at_desc_perm. Qed.

Lemma users_of_no_tenant (db : DB) : users_of_tenant None db = [].
Proof.
  unfold users_of_tenant.
  replace (filter (fun u => sql_eq (u_tenant_id u) None) (users db)) with (@nil UserRow).
  - reflexivity.
  - induction (users db) as [| u l IH]; simpl; [reflexivity |].
    now destruct (u_tenant_id u).
Qed.

Lemma list_users_run (req : Request) (db : DB) :
  tenantGuard req = None ->
  run (list_users req) db =
  if negb (strict_eq (p_tenantId (params req)) (tenantId req))
     && negb (String.eqb (role (user req)) "super_admin")
  then (db, deny 403 "Forbidden")
  else (db, Sent {| status := 200; success := true; message := None;
                    data := Rows (users_of_tenant (tenantId req) db) |}).
Proof.
  intro Hg. unfold list_users. rewrite (chain_pass _ _ _ Hg).
  unfold list_users_handler.
  destruct (negb (strict_eq (p_tenantId (params req)) (tenantId req))
            && negb (String.eqb (role (user req)) "super_admin")); reflexivity.
Qed.

(** C10.  Whenever the first-registered GET /tenants/:tenantId/users answers
    with data, the rows are exactly the users whose [tenant_id] equals the
    tenant id of the claims ([req.tenantId]), whatever tenant the path names.
    A super_admin whose claims carry no tenant id passes the cross-tenant
    check for every path tenant and is answered 200 with the rows selected by
    a NULL tenant id, that is with none, however many users the tenant named
    in the path has. *)
Theorem list_users_selects_by_claims_tenant (req : Request) (db : DB) :
  (forall r, snd (run (list_users req) db) = Sent r -> success r = true ->
     exists rows,
       data r = Rows rows
       /\ Permutation rows
            (map view (filter (fun u => sql_eq (u_tenant_id u) (tenantId req))
                              (users db))))
  /\ (role (user req) = "super_admin" -> tenantId req = None ->
      run (list_users req) db =
      (db, Sent {| status := 200; success := true; message := None;
                   data := Rows [] |})).
Proof.
  split.
  - intros r Hr Hok.
    destruct (tenantGuard req) as [g |] eqn:Hg.
    + unfold list_users in Hr. rewrite (chain_answer _ _ _ _ _ Hg) in Hr.
      simpl in Hr. injection Hr as <-.
      unfold tenantGuard in Hg.
      destruct (String.eqb (role (user req)) "super_admin"); [discriminate |].
      destruct (falsy (tenantId req)); [| discriminate].
      injection Hg as <-. discriminate Hok.
    + rewrite (list_users_run req db Hg) in Hr.
      destruct (negb (strict_eq (p_tenantId (params req)) (tenantId req))
                && negb (String.eqb (role (user req)) "super_admin")).
      * simpl in Hr. injection Hr as <-. discriminate Hok.
      * simpl in Hr. injection Hr as <-.
        exists (users_of_tenant (tenantId req) db). split; [reflexivity |].
        apply users_of_tenant_perm.
  - intros Hrole Hnone.
    rewrite (list_users_run req db (tenantGuard_super_admin req Hrole)).
    rewrite Hrole, Hnone. simpl. now rewrite users_of_no_tenant.
Qed.

(** The seeded super_admin lists the users of tenant T1, which has two. *)
Lemma list_users_selects_by_claims_tenant_witness :
  let req := Demo.request Demo.superadmin "super_admin" None
               {| p_tenantId := Demo.T1; p_userId := ""; p_projectId := "" |}
               Demo.no_body in
  let db := Demo.db 25 15 [] in
  count_users (Some Demo.T1) db = 2
  /\ run (list_users req) db =
     (db, Sent {| status := 200; success := true; message := None;
                  data := Rows [] |}).
Proof.
  intros req db. split; [reflexivity |].
  apply (proj2 (list_users_selects_by_claims_tenant req db)); reflexivity.
Defined.

(** API 9, registered second, selects by the path parameter instead. *)
Lemma api9_selects_by_path_tenant (req : Request) (db : DB) :
  tenantGuard req = None ->
  run (api9_list_users req) db =
  (db, Sent {| status := 200; success := true; message := None;
               data := UsersTotal
                         (users_of_tenant (Some (p_tenantId (params req))) db)
                         (length (users_of_tenant (Some (p_tenantId (params req))) db)) |}).
Proof.
  intro Hg. unfold api9_list_users. now rewrite (chain_pass _ _ _ Hg).
Qed.

(** ** Adding a user *)

Lemma add_user_cross_tenant_denied
      (env : Env) (requireRole : string -> Middleware) (req : Request) (db : DB) :
  requireRole "tenant_admin" req = None ->
  tenantGuard req = None ->
  tenantId req <> Some (p_tenantId (params req)) ->
  run (add_user env requireRole req) db = (db, deny 403 "Cross-tenant access denied").
Proof.
  intros Hrr Hg Hdiff. unfold add_user. simpl. rewrite Hrr, Hg.
  unfold add_user_handler.
  assert (E : strict_eq (p_tenantId (params req)) (tenantId req) = false).
  { destruct (tenantId req) as [s |]; simpl; [| reflexivity].
    destruct (String.eqb_spec (p_tenantId (params req)) s); [| reflexivity].
    subst. now destruct Hdiff. }
  now rewrite E.
Qed.

Definition user_body (mail pw name : string) : Body :=
  {| b_email := mail; b_password := pw; b_fullName := Val name;
     b_role := Undefined; b_isActive := Undefined; b_name := Undefined;
     b_description := Undefined; b_status := Undefined |}.

(** API 8, registered second for POST /tenants/:tenantId/users and so
    never reached while the first-registered handler answers, makes no
    comparison of the path parameter with [req.tenantId] and passes
    [req.params.tenantId] to all three queries: run on its own, it answers a
    tenant_admin posting to the path of another tenant with 201 and a row
    that carries the tenant of the path. *)
Lemma api8_add_user_trusts_path_tenant
        (env : Env) (req : Request) (db : DB) (t : TenantRow) :
  role (user req) = "tenant_admin" ->
  falsy (tenantId req) = false ->
  tenantId req <> Some (p_tenantId (params req)) ->
  tenant_row (Some (p_tenantId (params req))) db = Some t ->
  count_users (Some (p_tenantId (params req))) db < max_users t ->
  run (api8_add_user env req) db =
  (insert_user
     (new_user env (Some (p_tenantId (params req)))
               (bcrypt_hash env (b_password (body req)) 10) (body req))
     db,
   Sent {| status := 201; success := true;
           message := Some "User created successfully";
           data := NewUser (uuidv4 env) (b_email (body req))
                     (b_fullName (body req))
                     (or_default "user" (b_role (body req))) |}).
Proof.
  intros Hrole Hten _ Ht Hroom.
  assert (Hg : tenantGuard req = None).
  { apply tenantGuard_bound; [rewrite Hrole; discriminate | exact Hten]. }
  unfold api8_add_user. rewrite (chain_pass _ _ _ Hg).
  unfold api8_handler. rewrite Hrole. simpl. rewrite Ht.
  apply Nat.leb_gt in Hroom. now rewrite Hroom.
Qed.

(** The tenant_admin of T1 posts to /tenants/T2/users. *)
Lemma api8_add_user_trusts_path_tenant_witness :
  let req := Demo.request Demo.admin1 "tenant_admin" (Some Demo.T1)
               {| p_tenantId := Demo.T2; p_userId := ""; p_projectId := "" |}
               (user_body "mole@other.com" "secret" "Mole") in
  let db := Demo.db 25 15 [] in
  let db' := fst (run (api8_add_user (Demo.env "u9") req) db) in
  (tenantId req = Some Demo.T1
   /\ option_map u_tenant_id (user_by_id "u9" db') = Some (Some Demo.T2)
   /\ count_users (Some Demo.T2) db = 1
   /\ count_users (Some Demo.T2) db' = 2)
  /\ run (api8_add_user (Demo.env "u9") req) db =
     (insert_user
        (new_user (Demo.env "u9") (Some Demo.T2) "$2b$10$secret" (body req)) db,
      Sent {| status := 201; success := true;
              message := Some "User created successfully";
              data := NewUser "u9" "mole@other.com" (Val "Mole") (Val "user") |}).
Proof.
  intros req db. split; [repeat split |].
  apply (api8_add_user_trusts_path_tenant (Demo.env "u9") req db
           (Demo.tenant Demo.T2 "Other Company" "other" 25 15));
    [reflexivity | reflexivity | discriminate | reflexivity | vm_compute; lia].
Defined.

(** The same request is refused by the first-registered handler. *)
Lemma add_user_refuses_path_tenant :
  let req := Demo.request Demo.admin1 "tenant_admin" (Some Demo.T1)
               {| p_tenantId := Demo.T2; p_userId := ""; p_projectId := "" |}
               (user_body "mole@other.com" "secret" "Mole") in
  let db := Demo.db 25 15 [] in
  run (add_user (Demo.env "u9") Demo.requireRole req) db
  = (db, deny 403 "Cross-tenant access denied").
Proof. reflexivity. Qed.

(** The user route has the same shape, a count and an insert with awaits
    between them, and the same race. *)
Lemma add_user_race_exceeds_ceiling :
  let req mail :=
    Demo.request Demo.admin1 "tenant_admin" (Some Demo.T1)
                 {| p_tenantId := Demo.T1; p_userId := ""; p_projectId := "" |}
                 (user_body mail "secret" "New") in
  let pool := [ add_user (Demo.env "u8") Demo.requireRole (req "one@demo.com");
                add_user (Demo.env "u9") Demo.requireRole (req "two@demo.com") ] in
  let final := interleave [0; 1; 0; 1; 0; 1; 0; 1; 0; 1] pool (Demo.db 3 15 []) in
  map outcome (snd final) =
    [ Some (Sent (json 201 true "User created"));
      Some (Sent (json 201 true "User created")) ]
  /\ count_users (Some Demo.T1) (Demo.db 3 15 []) = 2
  /\ count_users (Some Demo.T1) (fst final) = 4.
Proof. repeat split. Qed.

(** * Further properties of the routes *)

(** ** Sample requests *)

Module Sample.

Definition path (tid : string) : Params :=
  {| p_tenantId := tid; p_userId := ""; p_projectId := "" |}.

Definition on_project (id : string) : Params :=
  {| p_tenantId := ""; p_userId := ""; p_projectId := id |}.

(** The tenant_admin of T1 adds a user through /tenants/[tid]/users. *)
Definition add_request (tid : string) : Request :=
  Demo.request Demo.admin1 "tenant_admin" (Some Demo.T1) (path tid)
               (user_body "new@demo.com" "secret" "New").

Definition t1 (mu mp : nat) : TenantRow :=
  Demo.tenant Demo.T1 "Demo Company" "demo" mu mp.

Definition t2 : TenantRow := Demo.tenant Demo.T2 "Other Company" "other" 25 15.

Definition task (id pid st : string) (who : option string) : TaskRow :=
  {| k_id := id; project_id := pid; k_status := st; assigned_to := who |}.

(** The seed with two projects of T1, one of T2, and three tasks. *)
Definition db : DB :=
  {| tenants := [t1 25 15; t2];
     users := Demo.seed_users;
     projects := [ Demo.project_row "p1" Demo.T1 "Alpha" Demo.admin1;
                   Demo.project_row "p2" Demo.T1 "Beta" Demo.member1;
                   Demo.project_row "p3" Demo.T2 "Gamma" Demo.member2 ];
     tasks := [ task "k1" "p1" "completed" (Some Demo.member1);
                task "k2" "p1" "todo" (Some Demo.member1);
                task "k3" "p2" "todo" (Some Demo.admin1) ];
     audit_logs := [] |}.

End Sample.

(** ** Adding a user, first-registered handler *)

Lemma strict_eq_refl (s : string) : strict_eq s (Some s) = true.
Proof. simpl. apply String.eqb_refl. Qed.

Lemma sql_eq_false (a b : option string) : a <> b -> sql_eq a b = false.
Proof.
  intro H. destruct (sql_eq a b) eqn:E; [| reflexivity].
  apply sql_eq_true in E. contradiction.
Qed.

Lemma count_users_insert (tid : option string) (u : UserRow) (db : DB) :
  count_users tid (insert_user u db) =
  count_users tid db + (if sql_eq (u_tenant_id u) tid then 1 else 0).
Proof.
  unfold count_users, insert_user. simpl. rewrite filter_app, length_app. simpl.
  now destruct (sql_eq (u_tenant_id u) tid).
Qed.

(** What the handler does once both middlewares have let the request through
    and the path names the tenant of the claims. *)
Lemma add_user_run (env : Env) (requireRole : string -> Middleware)
      (req : Request) (db : DB) (t : TenantRow) :
  requireRole "tenant_admin" req = None ->
  tenantGuard req = None ->
  tenantId req = Some (p_tenantId (params req)) ->
  tenant_row (tenantId req) db = Some t ->
  run (add_user env requireRole req) db =
  if Nat.leb (max_users t) (count_users (tenantId req) db) then
    (db, deny 403 "Subscription limit reached")
  else
    (set_audit_logs
       (audit_logs db ++ [audit req "CREATE_USER" "user" (uuidv4 env)])
       (insert_user
          (new_user env (tenantId req)
                    (bcrypt_hash env (b_password (body req)) 10) (body req))
          db),
     Sent (json 201 true "User created")).
Proof.
  intros Hrr Hg Hpath Ht. unfold add_user. simpl. rewrite Hrr, Hg.
  unfold add_user_handler. rewrite Hpath at 1. rewrite strict_eq_refl. simpl.
  rewrite Ht.
  destruct (Nat.leb (max_users t) (count_users (tenantId req) db)); reflexivity.
Qed.

(** When the claims' tenant has no row, reading [max_users] throws. *)
Lemma add_user_no_tenant_row (env : Env) (requireRole : string -> Middleware)
      (req : Request) (db : DB) :
  requireRole "tenant_admin" req = None ->
  tenantGuard req = None ->
  tenantId req = Some (p_tenantId (params req)) ->
  tenant_row (tenantId req) db = None ->
  run (add_user env requireRole req) db = (db, Rejected (TypeError "max_users")).
Proof.
  intros Hrr Hg Hpath Ht. unfold add_user. simpl. rewrite Hrr, Hg.
  unfold add_user_handler. rewrite Hpath at 1. rewrite strict_eq_refl. simpl.
  now rewrite Ht.
Qed.

(** X1.  The first-registered POST /tenants/:tenantId/users serves only the
    tenant of the claims.  A request that has passed both middlewares is
    answered 403 "Cross-tenant access denied" exactly when the path names
    anything but the tenant id of the claims, so always when the claims carry
    none, and the database is then left as it was. *)
Theorem add_user_requires_own_tenant
        (env : Env) (requireRole : string -> Middleware) (req : Request) (db : DB) :
  requireRole "tenant_admin" req = None ->
  tenantGuard req = None ->
  (snd (run (add_user env requireRole req) db)
   = deny 403 "Cross-tenant access denied"
   <-> tenantId req <> Some (p_tenantId (params req)))
  /\ (tenantId req <> Some (p_tenantId (params req)) ->
      fst (run (add_user env requireRole req) db) = db).
Proof.
  intros Hrr Hg. split; [split |].
  - intros Hout Hpath.
    destruct (tenant_row (tenantId req) db) as [t |] eqn:Ht.
    + rewrite (add_user_run env requireRole req db t Hrr Hg Hpath Ht) in Hout.
      destruct (Nat.leb (max_users t) (count_users (tenantId req) db));
        discriminate Hout.
    + rewrite (add_user_no_tenant_row env requireRole req db Hrr Hg Hpath Ht) in Hout.
      discriminate Hout.
  - intro Hdiff.
    now rewrite (add_user_cross_tenant_denied env requireRole req db Hrr Hg Hdiff).
  - intro Hdiff.
    now rewrite (add_user_cross_tenant_denied env requireRole req db Hrr Hg Hdiff).
Qed.

(** The tenant_admin of T1 posts to the path of T2. *)
Lemma add_user_requires_own_tenant_witness :
  let req := Sample.add_request Demo.T2 in
  (snd (run (add_user (Demo.env "u9") Demo.requireRole req) Sample.db)
   = deny 403 "Cross-tenant access denied"
   <-> tenantId req <> Some (p_tenantId (params req)))
  /\ (tenantId req <> Some (p_tenantId (params req)) ->
      fst (run (add_user (Demo.env "u9") Demo.requireRole req) Sample.db)
      = Sample.db).
Proof.
  intro req.
  apply (add_user_requires_own_tenant (Demo.env "u9") Demo.requireRole
           req Sample.db);
    reflexivity.
Defined.

(** X2.  When the user count of the tenant has reached [max_users], or
    passed it, the request is answered 403 "Subscription limit reached"
    before the password is hashed; no user row and no audit entry is
    written. *)
Theorem add_user_at_ceiling_denied
        (env : Env) (requireRole : string -> Middleware)
        (req : Request) (db : DB) (t : TenantRow) :
  requireRole "tenant_admin" req = None ->
  tenantGuard req = None ->
  tenantId req = Some (p_tenantId (params req)) ->
  tenant_row (tenantId req) db = Some t ->
  max_users t <= count_users (tenantId req) db ->
  run (add_user env requireRole req) db = (db, deny 403 "Subscription limit reached").
Proof.
  intros Hrr Hg Hpath Ht Hfull.
  rewrite (add_user_run env requireRole req db t Hrr Hg Hpath Ht).
  apply Nat.leb_le in Hfull. now rewrite Hfull.
Qed.

(** Tenant T1 holds two users under a ceiling of two. *)
Lemma add_user_at_ceiling_denied_witness :
  run (add_user (Demo.env "u9") Demo.requireRole (Sample.add_request Demo.T1))
      (Demo.db 2 15 [])
  = (Demo.db 2 15 [], deny 403 "Subscription limit reached").
Proof.
  apply (add_user_at_ceiling_denied (Demo.env "u9") Demo.requireRole
           (Sample.add_request Demo.T1) (Demo.db 2 15 []) (Sample.t1 2 15));
    [reflexivity | reflexivity | reflexivity | reflexivity | vm_compute; lia].
Defined.

(** X3.  Under the ceiling, a request whose e-mail no user of the tenant
    holds yet (the unique constraint on (tenant_id, email)) and whose fresh
    id no user carries is answered 201 and exactly one row is added: it
    carries the tenant id of the claims, the [bcrypt] hash of the password
    and not the password, and the role "user" when the body names none.
    The user count of the tenant grows by one, the count of every other
    tenant is unchanged, and one CREATE_USER audit entry is written. *)
Theorem add_user_creates_in_own_tenant
        (env : Env) (requireRole : string -> Middleware)
        (req : Request) (db : DB) (t : TenantRow) :
  requireRole "tenant_admin" req = None ->
  tenantGuard req = None ->
  tenantId req = Some (p_tenantId (params req)) ->
  tenant_row (tenantId req) db = Some t ->
  count_users (tenantId req) db < max_users t ->
  (forall u, In u (users db) -> u_tenant_id u = tenantId req ->
             email u <> b_email (body req)) ->
  (forall u, In u (users db) -> u_id u <> uuidv4 env) ->
  let db' := fst (run (add_user env requireRole req) db) in
  let row := new_user env (tenantId req)
                      (bcrypt_hash env (b_password (body req)) 10) (body req) in
  snd (run (add_user env requireRole req) db) = Sent (json 201 true "User created")
  /\ users db' = (users db ++ [row])%list
  /\ u_tenant_id row = tenantId req
  /\ password_hash row = bcrypt_hash env (b_password (body req)) 10
  /\ (b_role (body req) = Undefined -> u_role row = Some "user")
  /\ count_users (tenantId req) db' = S (count_users (tenantId req) db)
  /\ (forall tid, tid <> tenantId req -> count_users tid db' = count_users tid db)
  /\ audit_logs db' =
     (audit_logs db ++ [audit req "CREATE_USER" "user" (uuidv4 env)])%list.
Proof.
  intros Hrr Hg Hpath Ht Hroom _ _. cbv zeta.
  rewrite (add_user_run env requireRole req db t Hrr Hg Hpath Ht).
  apply Nat.leb_gt in Hroom. rewrite Hroom. cbn [fst snd].
  assert (Hself : sql_eq (tenantId req) (tenantId req) = true).
  { rewrite Hpath. simpl. apply String.eqb_refl. }
  repeat split.
  - intro Hr. simpl. now rewrite Hr.
  - change (count_users (tenantId req)
              (insert_user (new_user env (tenantId req)
                 (bcrypt_hash env (b_password (body req)) 10) (body req)) db)
            = S (count_users (tenantId req) db)).
    rewrite count_users_insert. cbn [new_user u_tenant_id]. rewrite Hself. lia.
  - intros tid Hne.
    change (count_users tid
              (insert_user (new_user env (tenantId req)
                 (bcrypt_hash env (b_password (body req)) 10) (body req)) db)
            = count_users tid db).
    rewrite count_users_insert. cbn [new_user u_tenant_id].
    rewrite sql_eq_false; [lia | congruence].
Qed.

Lemma add_user_creates_in_own_tenant_witness :
  let req := Sample.add_request Demo.T1 in
  let db' := fst (run (add_user (Demo.env "u9") Demo.requireRole req) Sample.db) in
  let row := new_user (Demo.env "u9") (Some Demo.T1) "$2b$10$secret" (body req) in
  snd (run (add_user (Demo.env "u9") Demo.requireRole req) Sample.db)
  = Sent (json 201 true "User created")
  /\ users db' = (users Sample.db ++ [row])%list
  /\ u_tenant_id row = Some Demo.T1
  /\ password_hash row = "$2b$10$secret"
  /\ (b_role (body req) = Undefined -> u_role row = Some "user")
  /\ count_users (Some Demo.T1) db' = 3
  /\ (forall tid, tid <> Some Demo.T1 ->
      count_users tid db' = count_users tid Sample.db)
  /\ audit_logs db' = [audit req "CREATE_USER" "user" "u9"].
Proof.
  intro req.
  apply (add_user_creates_in_own_tenant (Demo.env "u9") Demo.requireRole
           req Sample.db (Sample.t1 25 15));
    [reflexivity | reflexivity | reflexivity | reflexivity | vm_compute; lia
     | intros u Hu _ E | intros u Hu E ];
    simpl in Hu;
    repeat (destruct Hu as [<- | Hu]; [discriminate E |]); destruct Hu.
Defined.

(** ** Ceilings when requests are served in turn *)

(** Every tenant that has a row holds no more users, or projects, than the
    row allows. *)
Definition users_within_ceilings (db : DB) : Prop :=
  forall tid t, tenant_row tid db = Some t -> count_users tid db <= max_users t.

Definition projects_within_ceilings (db : DB) : Prop :=
  forall tid t, tenant_row tid db = Some t -> count_projects tid db <= max_projects t.

(** Requests handled one after the other, each to its end. *)
Fixpoint serve (ps : list Prog) (db : DB) : DB * list Outcome :=
  match ps with
  | [] => (db, [])
  | p :: ps' =>
      let (db1, o) := run p db in
      let (db2, os) := serve ps' db1 in
      (db2, o :: os)
  end.

(** A creation request of either kind. *)
Inductive Creation :=
| NewProject (env : Env) (req : Request)
| NewUserOf (env : Env) (req : Request).

Definition creation (requireRole : string -> Middleware) (c : Creation) : Prog :=
  match c with
  | NewProject env req => create_project env req
  | NewUserOf env req => add_user env requireRole req
  end.

Definition created (o : Outcome) : bool :=
  match o with
  | Sent r => Nat.eqb (status r) 201
  | Rejected _ => false
  end.

(** A creation request either leaves the database as it was or found room
    under the ceiling and appended one row and one audit entry. *)
Lemma create_project_cases (env : Env) (req : Request) (db : DB) :
  fst (run (create_project env req) db) = db
  \/ exists t,
      tenant_row (tenantId req) db = Some t
      /\ count_projects (tenantId req) db < max_projects t
      /\ fst (run (create_project env req) db) =
         set_audit_logs
           (audit_logs db ++ [audit req "CREATE_PROJECT" "project" (uuidv4 env)])
           (set_projects (projects db ++ [new_project env req]) db).
Proof.
  destruct (tenantGuard req) as [r |] eqn:Hg.
  - left. unfold create_project. now rewrite (chain_answer _ _ _ _ _ Hg).
  - destruct (tenant_row (tenantId req) db) as [t |] eqn:Ht.
    + rewrite (create_project_run env req db t Hg Ht).
      destruct (Nat.leb_spec (max_projects t) (count_projects (tenantId req) db)).
      * now left.
      * right. exists t. repeat split. assumption.
    + left. unfold create_project. rewrite (chain_pass _ _ _ Hg).
      unfold create_project_handler. simpl. now rewrite Ht.
Qed.

Lemma option_eq_dec_string (a b : option string) : {a = b} + {a <> b}.
Proof. decide equality. apply String.string_dec. Qed.

Lemma add_user_cases (env : Env) (requireRole : string -> Middleware)
      (req : Request) (db : DB) :
  fst (run (add_user env requireRole req) db) = db
  \/ exists t,
      tenant_row (tenantId req) db = Some t
      /\ count_users (tenantId req) db < max_users t
      /\ fst (run (add_user env requireRole req) db) =
         set_audit_logs
           (audit_logs db ++ [audit req "CREATE_USER" "user" (uuidv4 env)])
           (insert_user
              (new_user env (tenantId req)
                        (bcrypt_hash env (b_password (body req)) 10) (body req))
              db).
Proof.
  destruct (requireRole "tenant_admin" req) as [r |] eqn:Hrr.
  { left. unfold add_user. now rewrite (chain_answer _ _ _ _ _ Hrr). }
  destruct (tenantGuard req) as [r |] eqn:Hg.
  { left. unfold add_user. simpl. now rewrite Hrr, Hg. }
  destruct (option_eq_dec_string (tenantId req) (Some (p_tenantId (params req))))
    as [Hpath | Hdiff].
  - destruct (tenant_row (tenantId req) db) as [t |] eqn:Ht.
    + rewrite (add_user_run env requireRole req db t Hrr Hg Hpath Ht).
      destruct (Nat.leb_spec (max_users t) (count_users (tenantId req) db)).
      * now left.
      * right. exists t. repeat split. assumption.
    + left. now rewrite (add_user_no_tenant_row env requireRole req db Hrr Hg Hpath Ht).
  - left. now rewrite (add_user_cross_tenant_denied env requireRole req db Hrr Hg Hdiff).
Qed.



Lemma creation_step (requireRole : string -> Middleware) (c : Creation) (db : DB) :
  users_within_ceilings db ->
  projects_within_ceilings db ->
  users_within_ceilings (fst (run (creation requireRole c) db))
  /\ projects_within_ceilings (fst (run (creation requireRole c) db)).
Proof.
  intros Hu Hp. destruct c as [env req | env req]; simpl.
  - destruct (create_project_cases env req db) as [E | [t [Ht [Hroom E]]]];
      rewrite E; [now split |].
    split.
    + intros tid t' Ht'. apply (Hu tid t' Ht').
    + intros tid t' Ht'.
      change (tenant_row tid db = Some t') in Ht'.
      change (count_projects tid
                (set_projects (projects db ++ [new_project env req]) db)
              <= max_projects t').
      rewrite count_projects_insert. cbn [new_project p_tenant_id].
      destruct (sql_eq (tenantId req) tid) eqn:S.
      * apply sql_eq_true in S. subst tid. rewrite Ht in Ht'.
        injection Ht' as <-. lia.
      * specialize (Hp tid t' Ht'). lia.
  - destruct (add_user_cases env requireRole req db) as [E | [t [Ht [Hroom E]]]];
      rewrite E; [now split |].
    split.
    + intros tid t' Ht'.
      change (tenant_row tid db = Some t') in Ht'.
      change (count_users tid
                (insert_user
                   (new_user env (tenantId req)
                      (bcrypt_hash env (b_password (body req)) 10) (body req)) db)
              <= max_users t').
      rewrite count_users_insert. cbn [new_user u_tenant_id].
      destruct (sql_eq (tenantId req) tid) eqn:S.
      * apply sql_eq_true in S. subst tid. rewrite Ht in Ht'.
        injection Ht' as <-. lia.
      * specialize (Hu tid t' Ht'). lia.
    + intros tid t' Ht'. apply (Hp tid t' Ht').
Qed.

(** X4.  Served one after the other, creation requests of both kinds keep
    every tenant within its ceilings: if no tenant holds more users than
    [max_users] or more projects than [max_projects] before, none does
    after, whoever sent the requests and however each was answered. *)
Theorem creations_in_turn_keep_ceilings
        (requireRole : string -> Middleware) (cs : list Creation) (db : DB) :
  users_within_ceilings db ->
  projects_within_ceilings db ->
  users_within_ceilings (fst (serve (map (creation requireRole) cs) db))
  /\ projects_within_ceilings (fst (serve (map (creation requireRole) cs) db)).
Proof.
  revert db. induction cs as [| c cs IH]; intros db Hu Hp; simpl.
  - now split.
  - destruct (creation_step requireRole c db Hu Hp) as [Hu1 Hp1].
    destruct (run (creation requireRole c) db) as [db1 o]. simpl in Hu1, Hp1.
    specialize (IH db1 Hu1 Hp1).
    destruct (serve (map (creation requireRole) cs) db1) as [db2 os].
    exact IH.
Qed.

Lemma tenant_row_in_sample (tid : option string) (t : TenantRow) :
  tenant_row tid Sample.db = Some t ->
  (tid = Some Demo.T1 /\ t = Sample.t1 25 15) \/ (tid = Some Demo.T2 /\ t = Sample.t2).
Proof.
  unfold tenant_row, Sample.db. cbn [tenants find t_id Sample.t1 Sample.t2 Demo.tenant].
  destruct (sql_eq (Some Demo.T1) tid) eqn:E1.
  - intro H. apply sql_eq_true in E1. left. split; [now symmetry | congruence].
  - destruct (sql_eq (Some Demo.T2) tid) eqn:E2; [| discriminate].
    intro H. apply sql_eq_true in E2. right. split; [now symmetry | congruence].
Qed.

(** Three users and three projects are requested for T1 in the sample
    database, by its tenant_admin and by a member. *)
Lemma creations_in_turn_keep_ceilings_witness :
  let cs := [ NewUserOf (Demo.env "u7") (Sample.add_request Demo.T1);
              NewProject (Demo.env "p7")
                (Demo.request Demo.member1 "user" (Some Demo.T1)
                              Demo.no_params (Demo.project_body "Delta"));
              NewUserOf (Demo.env "u8") (Sample.add_request Demo.T2) ] in
  users_within_ceilings (fst (serve (map (creation Demo.requireRole) cs) Sample.db))
  /\ projects_within_ceilings
       (fst (serve (map (creation Demo.requireRole) cs) Sample.db)).
Proof.
  intro cs.
  apply (creations_in_turn_keep_ceilings Demo.requireRole cs Sample.db).
  - intros tid t Ht.
    destruct (tenant_row_in_sample tid t Ht) as [[-> ->] | [-> ->]];
      vm_compute; lia.
  - intros tid t Ht.
    destruct (tenant_row_in_sample tid t Ht) as [[-> ->] | [-> ->]];
      vm_compute; lia.
Defined.

(** X5.  Project creation requests for one tenant, served one after the
    other, fill the ceiling and stop there: with [room] slots left, exactly
    [min n room] of the [n] requests are answered 201, every other one is
    answered 403 "Project limit reached", and the tenant's project count
    grows by the number of 201 answers. *)
Theorem create_projects_in_turn_fill_ceiling
        (l : list (Env * Request)) (db : DB) (tid : option string) (t : TenantRow) :
  (forall er, In er l -> tenantGuard (snd er) = None /\ tenantId (snd er) = tid) ->
  tenant_row tid db = Some t ->
  let final := serve (map (fun er => create_project (fst er) (snd er)) l) db in
  let room := max_projects t - count_projects tid db in
  length (filter created (snd final)) = Nat.min (length l) room
  /\ Forall (fun o => created o = true \/ o = deny 403 "Project limit reached")
            (snd final)
  /\ count_projects tid (fst final) = count_projects tid db + Nat.min (length l) room.
Proof.
  revert db. induction l as [| [env req] l IH]; intros db Hall Ht; cbv zeta.
  - simpl. repeat split; [constructor | lia].
  - destruct (Hall (env, req) (or_introl eq_refl)) as [Hg Htid]. simpl in Hg, Htid.
    assert (Hrest : forall er, In er l ->
                      tenantGuard (snd er) = None /\ tenantId (snd er) = tid).
    { intros er Her. apply Hall. now right. }
    cbn [map serve fst snd]. subst tid.
    rewrite (create_project_run env req db t Hg Ht).
    destruct (Nat.leb_spec (max_projects t) (count_projects (tenantId req) db))
      as [Hfull | Hroom].
    + specialize (IH db Hrest Ht). cbv zeta in IH.
      destruct (serve (map (fun er => create_project (fst er) (snd er)) l) db)
        as [db2 os].
      cbn [fst snd] in *. destruct IH as [Hn [Hf Hc]].
      replace (max_projects t - count_projects (tenantId req) db) with 0 in * by lia.
      rewrite Nat.min_0_r in *.
      split; [simpl; exact Hn | split].
      * constructor; [now right | exact Hf].
      * exact Hc.
    + set (db1 := set_audit_logs
                    (audit_logs db ++ [audit req "CREATE_PROJECT" "project" (uuidv4 env)])
                    (set_projects (projects db ++ [new_project env req]) db)).
      assert (Ht1 : tenant_row (tenantId req) db1 = Some t) by exact Ht.
      assert (Hself : sql_eq (tenantId req) (tenantId req) = true).
      { unfold tenant_row in Ht. apply find_some in Ht as [_ Ht].
        destruct (tenantId req); simpl in *; [apply String.eqb_refl | discriminate]. }
      assert (Hc1 : count_projects (tenantId req) db1
                    = S (count_projects (tenantId req) db)).
      { change (count_projects (tenantId req)
                  (set_projects (projects db ++ [new_project env req]) db)
                = S (count_projects (tenantId req) db)).
        rewrite count_projects_insert. cbn [new_project p_tenant_id].
        rewrite Hself. lia. }
      specialize (IH db1 Hrest Ht1). cbv zeta in IH.
      destruct (serve (map (fun er => create_project (fst er) (snd er)) l) db1)
        as [db2 os].
      cbn [fst snd] in *. destruct IH as [Hn [Hf Hc]].
      rewrite Hc1 in Hn, Hc.
      split; [| split].
      * change (S (length (filter created os))
                = Nat.min (S (length l))
                          (max_projects t - count_projects (tenantId req) db)).
        rewrite Hn. lia.
      * constructor; [now left | exact Hf].
      * rewrite Hc. cbn [length]. lia.
Qed.

(** Four requests for a tenant that holds one project under a ceiling of
    three: two are answered 201 and the tenant ends with three projects. *)
Lemma create_projects_in_turn_fill_ceiling_witness :
  let req := Race.req in
  let l := [ (Demo.env "p5", req); (Demo.env "p6", req);
             (Demo.env "p7", req); (Demo.env "p8", req) ] in
  let db := Demo.db 25 3 [Demo.project_row "p1" Demo.T1 "Alpha" Demo.admin1] in
  let final := serve (map (fun er => create_project (fst er) (snd er)) l) db in
  length (filter created (snd final)) = 2
  /\ Forall (fun o => created o = true \/ o = deny 403 "Project limit reached")
            (snd final)
  /\ count_projects (Some Demo.T1) (fst final) = 3.
Proof.
  intros req l db.
  apply (create_projects_in_turn_fill_ceiling l db (Some Demo.T1) (Sample.t1 25 3)).
  - intros er Her. simpl in Her.
    repeat (destruct Her as [<- | Her]; [split; reflexivity |]). destruct Her.
  - reflexivity.
Defined.

(** ** Updating a user: what both handlers keep *)

Lemma update_user_route_cases (req : Request) (db : DB) :
  fst (run (update_user_route req) db) = db
  \/ fst (run (update_user_route req) db) =
     set_audit_logs
       (audit_logs db ++ [audit req "UPDATE_USER" "user" (p_userId (params req))])
       (update_user (body req) (p_userId (params req)) db).
Proof.
  destruct (tenantGuard req) as [r |] eqn:Hg.
  - left. unfold update_user_route. now rewrite (chain_answer _ _ _ _ _ Hg).
  - destruct (user_by_id (p_userId (params req)) db) as [target |] eqn:Hu.
    + rewrite (update_user_route_run req db target Hg Hu).
      rewrite (user_by_id_found _ _ _ Hu).
      destruct (negb (String.eqb (role (user req)) "tenant_admin")
                && negb (String.eqb (userId (user req)) (p_userId (params req))));
        [now left | now right].
    + left. unfold update_user_route. rewrite (chain_pass _ _ _ Hg).
      unfold update_user_handler. simpl. now rewrite Hu.
Qed.

Lemma api10_update_user_cases (req : Request) (db : DB) :
  fst (run (api10_update_user req) db) = db
  \/ fst (run (api10_update_user req) db) =
     update_user (body req) (p_userId (params req)) db.
Proof.
  destruct (tenantGuard req) as [r |] eqn:Hg.
  - left. unfold api10_update_user. now rewrite (chain_answer _ _ _ _ _ Hg).
  - destruct (user_by_id (p_userId (params req)) db) as [row |] eqn:Hu.
    + rewrite (api10_update_user_run req db row Hg Hu).
      destruct (negb (String.eqb (role (user req)) "super_admin")
                && negb (strict_eq_null (u_tenant_id row) (tenantId req)));
        [now left |].
      destruct ((defined (b_role (body req)) || defined (b_isActive (body req)))
                && negb (String.eqb (role (user req)) "tenant_admin"));
        [now left | now right].
    + left. unfold api10_update_user. rewrite (chain_pass _ _ _ Hg).
      unfold api10_handler. simpl. now rewrite Hu.
Qed.

(** The columns the UPDATE statement does not set. *)
Definition identity (u : UserRow) : string * option string * string * string * nat :=
  (u_id u, u_tenant_id u, email u, password_hash u, u_created_at u).

Lemma update_user_identity (b : Body) (id : string) (db : DB) :
  map identity (users (update_user b id db)) = map identity (users db).
Proof.
  unfold update_user. cbn [users set_users]. rewrite map_map.
  apply map_ext. intro u. now destruct (String.eqb (u_id u) id).
Qed.

Lemma update_user_other_rows (b : Body) (id : string) (db : DB) (u : UserRow) :
  In u (users db) -> u_id u <> id -> In u (users (update_user b id db)).
Proof.
  intros Hin Hne. unfold update_user. cbn [users set_users].
  apply in_map_iff. exists u. split; [| exact Hin].
  destruct (String.eqb_spec (u_id u) id); [contradiction | reflexivity].
Qed.

(** X6.  Whatever the request and however it is answered, neither handler of
    PUT /users/:userId adds or removes a user or changes the id, tenant,
    email, password hash or creation time of any user; every row whose id is
    not the one in the path stays exactly as it was, and the tenant, project
    and task tables are not written. *)
Theorem update_user_keeps_identity (req : Request) (db : DB) :
  let after := [ fst (run (update_user_route req) db);
                 fst (run (api10_update_user req) db) ] in
  Forall (fun db' =>
            map identity (users db') = map identity (users db)
            /\ (forall u, In u (users db) -> u_id u <> p_userId (params req) ->
                          In u (users db'))
            /\ tenants db' = tenants db
            /\ projects db' = projects db
            /\ tasks db' = tasks db)
         after.
Proof.
  cbv zeta. repeat constructor.
  - destruct (update_user_route_cases req db) as [E | E]; rewrite E;
      [reflexivity | apply update_user_identity].
  - destruct (update_user_route_cases req db) as [E | E]; rewrite E;
      [auto | intros u Hin Hne; now apply update_user_other_rows].
  - destruct (update_user_route_cases req db) as [E | E]; now rewrite E.
  - destruct (update_user_route_cases req db) as [E | E]; now rewrite E.
  - destruct (update_user_route_cases req db) as [E | E]; now rewrite E.
  - destruct (api10_update_user_cases req db) as [E | E]; rewrite E;
      [reflexivity | apply update_user_identity].
  - destruct (api10_update_user_cases req db) as [E | E]; rewrite E;
      [auto | intros u Hin Hne; now apply update_user_other_rows].
  - destruct (api10_update_user_cases req db) as [E | E]; now rewrite E.
  - destruct (api10_update_user_cases req db) as [E | E]; now rewrite E.
  - destruct (api10_update_user_cases req db) as [E | E]; now rewrite E.
Qed.

Lemma updated_user_without_values (b : Body) (u : UserRow) :
  to_sql (b_fullName b) = None ->
  to_sql (b_role b) = None ->
  to_sql (b_isActive b) = None ->
  updated_user b u = u.
Proof.
  intros H1 H2 H3. unfold updated_user. rewrite H1, H2, H3. now destruct u.
Qed.

Lemma update_user_without_values (b : Body) (id : string) (db : DB) :
  to_sql (b_fullName b) = None ->
  to_sql (b_role b) = None ->
  to_sql (b_isActive b) = None ->
  update_user b id db = db.
Proof.
  intros H1 H2 H3. unfold update_user.
  replace (map (fun u => if String.eqb (u_id u) id then updated_user b u else u)
               (users db))
    with (users db).
  - now destruct db.
  - symmetry. rewrite <- (map_id (users db)) at 2. apply map_ext. intro u.
    destruct (String.eqb (u_id u) id); [| reflexivity].
    now apply updated_user_without_values.
Qed.

(** X7.  A field that is absent or null keeps the stored value.  When
    [fullName], [role] and [isActive] are each absent or null, no user row
    changes: API 10 leaves the whole database as it was, and the
    first-registered handler writes at most its audit entry. *)
Theorem update_user_without_values_keeps_rows (req : Request) (db : DB) :
  to_sql (b_fullName (body req)) = None ->
  to_sql (b_role (body req)) = None ->
  to_sql (b_isActive (body req)) = None ->
  users (fst (run (update_user_route req) db)) = users db
  /\ fst (run (api10_update_user req) db) = db.
Proof.
  intros H1 H2 H3. split.
  - destruct (update_user_route_cases req db) as [E | E]; rewrite E;
      [reflexivity |].
    cbn [users set_audit_logs]. now rewrite update_user_without_values.
  - destruct (api10_update_user_cases req db) as [E | E]; rewrite E;
      [reflexivity | now apply update_user_without_values].
Qed.

(** The tenant_admin of T1 sends [{ fullName: null }] for a member. *)
Lemma update_user_without_values_keeps_rows_witness :
  let req := Demo.request Demo.admin1 "tenant_admin" (Some Demo.T1)
               (on_user Demo.member1) (rename_body Null Undefined Undefined) in
  users (fst (run (update_user_route req) Sample.db)) = users Sample.db
  /\ fst (run (api10_update_user req) Sample.db) = Sample.db.
Proof.
  intro req.
  apply (update_user_without_values_keeps_rows req Sample.db); reflexivity.
Defined.

Lemma user_by_id_absent (id : string) (db : DB) :
  (forall u, In u (users db) -> u_id u <> id) -> user_by_id id db = None.
Proof.
  intro H. apply find_all_false. intros u Hu.
  destruct (String.eqb_spec (u_id u) id) as [E | _]; [| reflexivity].
  now destruct (H u Hu).
Qed.

(** X8.  An id that no user row carries is answered 404 "User not found" by
    both PUT handlers and, for a tenant_admin who does not name themself, by
    API 11, and nothing is written. *)
Theorem unknown_user_not_found (req : Request) (db : DB) :
  tenantGuard req = None ->
  (forall u, In u (users db) -> u_id u <> p_userId (params req)) ->
  run (update_user_route req) db = (db, deny 404 "User not found")
  /\ run (api10_update_user req) db = (db, deny 404 "User not found")
  /\ (role (user req) = "tenant_admin" ->
      userId (user req) <> p_userId (params req) ->
      run (api11_delete_user req) db = (db, deny 404 "User not found")).
Proof.
  intros Hg Habsent. apply user_by_id_absent in Habsent.
  split; [| split].
  - unfold update_user_route. rewrite (chain_pass _ _ _ Hg).
    unfold update_user_handler. simpl. now rewrite Habsent.
  - unfold api10_update_user. rewrite (chain_pass _ _ _ Hg).
    unfold api10_handler. simpl. now rewrite Habsent.
  - intros Hrole Hother.
    unfold api11_delete_user. rewrite (chain_pass _ _ _ Hg).
    unfold api11_handler. rewrite Hrole. simpl.
    destruct (String.eqb_spec (p_userId (params req)) (userId (user req))) as [E | _];
      [symmetry in E; contradiction |].
    simpl. now rewrite Habsent.
Qed.

Lemma unknown_user_not_found_witness :
  let req := Demo.request Demo.admin1 "tenant_admin" (Some Demo.T1)
               (on_user "eeeeeeee-eeee-eeee-eeee-eeeeeeeeeeee")
               (rename_body (Val "Nobody") Undefined Undefined) in
  run (update_user_route req) Sample.db = (Sample.db, deny 404 "User not found")
  /\ run (api10_update_user req) Sample.db = (Sample.db, deny 404 "User not found")
  /\ (role (user req) = "tenant_admin" ->
      userId (user req) <> p_userId (params req) ->
      run (api11_delete_user req) Sample.db = (Sample.db, deny 404 "User not found")).
Proof.
  intro req.
  apply (unknown_user_not_found req Sample.db); [reflexivity |].
  intros u Hu E. simpl in Hu.
  repeat (destruct Hu as [<- | Hu]; [discriminate E |]). destruct Hu.
Defined.

(** X9.  In the first-registered PUT /users/:userId only a tenant_admin may
    act on another user's record: any other role, super_admin included, is
    answered 403 "Forbidden" for a target that is not the actor, and nothing
    is written. *)
Theorem update_user_route_others_forbidden
        (req : Request) (db : DB) (target : UserRow) :
  tenantGuard req = None ->
  user_by_id (p_userId (params req)) db = Some target ->
  role (user req) <> "tenant_admin" ->
  userId (user req) <> p_userId (params req) ->
  run (update_user_route req) db = (db, deny 403 "Forbidden").
Proof.
  intros Hg Hu Hrole Hother.
  rewrite (update_user_route_run req db target Hg Hu).
  rewrite (user_by_id_found _ _ _ Hu).
  destruct (String.eqb_spec (role (user req)) "tenant_admin"); [contradiction |].
  destruct (String.eqb_spec (userId (user req)) (p_userId (params req)));
    [contradiction | reflexivity].
Qed.

(** The seeded super_admin tries to rename a member of T1. *)
Lemma update_user_route_others_forbidden_witness :
  run (update_user_route
         (Demo.request Demo.superadmin "super_admin" None (on_user Demo.member1)
                       (rename_body (Val "Renamed") Undefined Undefined)))
      Sample.db
  = (Sample.db, deny 403 "Forbidden").
Proof.
  apply (update_user_route_others_forbidden
           (Demo.request Demo.superadmin "super_admin" None (on_user Demo.member1)
                         (rename_body (Val "Renamed") Undefined Undefined))
           Sample.db
           (Demo.user_row Demo.member1 (Some Demo.T1) "user@demo.com"
                          "Demo User" "user"));
    try reflexivity; discriminate.
Defined.

Lemma strict_eq_null_true (a b : option string) :
  strict_eq_null a b = true -> a = b.
Proof.
  destruct a as [x |], b as [y |]; simpl; try discriminate; [| reflexivity].
  intro H. apply String.eqb_eq in H. now subst.
Qed.

(** X10.  API 10 checks the tenant first.  For an existing target the answer
    is 403 "Forbidden" exactly when the actor is not a super_admin and the
    target's [tenant_id] differs from the tenant id of the claims; the
    database is then left as it was, whatever the body asks for. *)
Theorem api10_tenant_isolation (req : Request) (db : DB) (row : UserRow) :
  tenantGuard req = None ->
  user_by_id (p_userId (params req)) db = Some row ->
  (snd (run (api10_update_user req) db) = deny 403 "Forbidden"
   <-> role (user req) <> "super_admin" /\ u_tenant_id row <> tenantId req)
  /\ (role (user req) <> "super_admin" -> u_tenant_id row <> tenantId req ->
      fst (run (api10_update_user req) db) = db).
Proof.
  intros Hg Hu. rewrite (api10_update_user_run req db row Hg Hu).
  assert (Hrefl : forall a, strict_eq_null a a = true).
  { intros [x |]; simpl; [apply String.eqb_refl | reflexivity]. }
  destruct (String.eqb_spec (role (user req)) "super_admin") as [Hs | Hs].
  - cbn [negb andb].
    destruct ((defined (b_role (body req)) || defined (b_isActive (body req)))
              && negb (String.eqb "super_admin" "tenant_admin")) eqn:P;
      rewrite <- Hs in P; rewrite P; cbn [fst snd].
    + split; [split |]; [discriminate | intros [H _]; contradiction
                        | intros H; contradiction].
    + split; [split |]; [discriminate | intros [H _]; contradiction
                        | intros H; contradiction].
  - destruct (strict_eq_null (u_tenant_id row) (tenantId req)) eqn:Ht;
      cbn [negb andb].
    + apply strict_eq_null_true in Ht.
      destruct ((defined (b_role (body req)) || defined (b_isActive (body req)))
                && negb (String.eqb (role (user req)) "tenant_admin"));
        cbn [fst snd].
      * split; [split |]; [discriminate | intros [_ H]; contradiction
                          | intros _ H; contradiction].
      * split; [split |]; [discriminate | intros [_ H]; contradiction
                          | intros _ H; contradiction].
    + cbn [fst snd]. split; [split |]; try reflexivity.
      intros _. split; [exact Hs |]. intro E. rewrite E, Hrefl in Ht. discriminate.
Qed.

(** A member of T1 asks to rename a user of T2. *)
Lemma api10_tenant_isolation_witness :
  let req := Demo.request Demo.member1 "user" (Some Demo.T1)
               (on_user Demo.member2)
               (rename_body (Val "Renamed") Undefined Undefined) in
  let row := Demo.user_row Demo.member2 (Some Demo.T2) "user@other.com"
                           "Other User" "user" in
  (snd (run (api10_update_user req) Sample.db) = deny 403 "Forbidden"
   <-> role (user req) <> "super_admin" /\ u_tenant_id row <> tenantId req)
  /\ (role (user req) <> "super_admin" -> u_tenant_id row <> tenantId req ->
      fst (run (api10_update_user req) Sample.db) = Sample.db).
Proof.
  intros req row.
  apply (api10_tenant_isolation req Sample.db row); reflexivity.
Defined.

(** X11.  In API 10 only a tenant_admin may send [role] or [isActive].  Once
    the tenant check is passed, a request of any other role, super_admin
    included, whose body holds either field, be it with a value or with
    null, is answered 403 "Not authorized" and nothing is written, even when
    the target is the actor's own record. *)
Theorem api10_privileged_fields_need_tenant_admin
        (req : Request) (db : DB) (row : UserRow) :
  tenantGuard req = None ->
  user_by_id (p_userId (params req)) db = Some row ->
  role (user req) = "super_admin" \/ u_tenant_id row = tenantId req ->
  role (user req) <> "tenant_admin" ->
  b_role (body req) <> Undefined \/ b_isActive (body req) <> Undefined ->
  run (api10_update_user req) db = (db, deny 403 "Not authorized").
Proof.
  intros Hg Hu Hpass Hrole Hfield.
  rewrite (api10_update_user_run req db row Hg Hu).
  assert (H1 : negb (String.eqb (role (user req)) "super_admin")
               && negb (strict_eq_null (u_tenant_id row) (tenantId req)) = false).
  { destruct Hpass as [-> | ->]; [reflexivity |].
    destruct (tenantId req) as [x |]; simpl;
      [rewrite String.eqb_refl | ]; apply andb_false_r. }
  assert (H2 : defined (b_role (body req)) || defined (b_isActive (body req)) = true).
  { destruct Hfield as [H | H].
    - destruct (b_role (body req)); [contradiction | reflexivity | reflexivity].
    - destruct (b_isActive (body req)); [contradiction | | ]; apply orb_true_r. }
  rewrite H1, H2.
  destruct (String.eqb_spec (role (user req)) "tenant_admin"); [contradiction | reflexivity].
Qed.

(** The seeded super_admin sends [{ isActive: null }] for a user of T2. *)
Lemma api10_privileged_fields_need_tenant_admin_witness :
  run (api10_update_user
         (Demo.request Demo.superadmin "super_admin" None (on_user Demo.member2)
                       (rename_body Undefined Undefined Null)))
      Sample.db
  = (Sample.db, deny 403 "Not authorized").
Proof.
  apply (api10_privileged_fields_need_tenant_admin
           (Demo.request Demo.superadmin "super_admin" None (on_user Demo.member2)
                         (rename_body Undefined Undefined Null))
           Sample.db
           (Demo.user_row Demo.member2 (Some Demo.T2) "user@other.com"
                          "Other User" "user"));
    [reflexivity | reflexivity | now left | discriminate | right; discriminate].
Defined.

(** X12.  A tenant_admin who updates a user of their own tenant through
    API 10 is answered 200; the row read back by id holds the values of the
    body where it gives one and the stored values elsewhere. *)
Theorem api10_tenant_admin_updates (req : Request) (db : DB) (row : UserRow) :
  role (user req) = "tenant_admin" ->
  falsy (tenantId req) = false ->
  user_by_id (p_userId (params req)) db = Some row ->
  u_tenant_id row = tenantId req ->
  let db' := fst (run (api10_update_user req) db) in
  let row' := updated_user (body req) row in
  snd (run (api10_update_user req) db) = ok "User updated successfully"
  /\ user_by_id (p_userId (params req)) db' = Some row'
  /\ full_name row' = nullish (b_fullName (body req)) (full_name row)
  /\ u_role row' = nullish (b_role (body req)) (u_role row)
  /\ is_active row' = nullish (b_isActive (body req)) (is_active row).
Proof.
  intros Hrole Hten Hu Hsame. cbv zeta.
  assert (Hg : tenantGuard req = None).
  { apply tenantGuard_bound; [rewrite Hrole; discriminate | exact Hten]. }
  rewrite (api10_update_user_run req db row Hg Hu), Hrole, Hsame.
  assert (E : strict_eq_null (tenantId req) (tenantId req) = true).
  { destruct (tenantId req); simpl; [apply String.eqb_refl | reflexivity]. }
  rewrite E.
  change (String.eqb "tenant_admin" "super_admin") with false.
  change (String.eqb "tenant_admin" "tenant_admin") with true.
  cbn [negb andb]. rewrite andb_false_r.
  cbn [fst snd]. split; [reflexivity | split].
  - rewrite user_by_id_update_user. now rewrite Hu.
  - unfold updated_user. cbn [full_name u_role is_active]. repeat split.
    + now destruct (b_fullName (body req)).
    + now destruct (b_role (body req)).
    + now destruct (b_isActive (body req)).
Qed.

(** The tenant_admin of T1 deactivates a member of T1. *)
Lemma api10_tenant_admin_updates_witness :
  let req := Demo.request Demo.admin1 "tenant_admin" (Some Demo.T1)
               (on_user Demo.member1) (rename_body Undefined Undefined (Val false)) in
  let row := Demo.user_row Demo.member1 (Some Demo.T1) "user@demo.com"
                           "Demo User" "user" in
  let db' := fst (run (api10_update_user req) Sample.db) in
  let row' := updated_user (body req) row in
  snd (run (api10_update_user req) Sample.db) = ok "User updated successfully"
  /\ user_by_id Demo.member1 db' = Some row'
  /\ full_name row' = Some "Demo User"
  /\ u_role row' = Some "user"
  /\ is_active row' = Some false.
Proof.
  intros req row.
  apply (api10_tenant_admin_updates req Sample.db row); reflexivity.
Defined.

(** ** What the second-registered user handlers never write *)

(** X13.  API 8, API 9, API 10 and API 11 never call [auditLog]: whatever the
    request and whatever they create, change or delete, the audit log is
    left exactly as it was. *)
Theorem second_handlers_never_audit (env : Env) (req : Request) (db : DB) :
  let after := [ fst (run (api8_add_user env req) db);
                 fst (run (api9_list_users req) db);
                 fst (run (api10_update_user req) db);
                 fst (run (api11_delete_user req) db) ] in
  Forall (fun db' => audit_logs db' = audit_logs db) after.
Proof.
  cbv zeta. repeat constructor.
  - unfold api8_add_user. simpl. destruct (tenantGuard req); [reflexivity |].
    unfold api8_handler.
    destruct (String.eqb (role (user req)) "tenant_admin"); [| reflexivity].
    simpl.
    destruct (tenant_row (Some (p_tenantId (params req))) db) as [t |];
      [| reflexivity].
    destruct (Nat.leb (max_users t) (count_users (Some (p_tenantId (params req))) db));
      reflexivity.
  - unfold api9_list_users. simpl. destruct (tenantGuard req); reflexivity.
  - destruct (api10_update_user_cases req db) as [E | E]; now rewrite E.
  - unfold api11_delete_user. simpl. destruct (tenantGuard req); [reflexivity |].
    unfold api11_handler.
    destruct (String.eqb (role (user req)) "tenant_admin"); [| reflexivity].
    simpl.
    destruct (String.eqb (p_userId (params req)) (userId (user req)));
      [reflexivity |].
    simpl. destruct (user_by_id (p_userId (params req)) db) as [row |];
      [| reflexivity].
    destruct (strict_eq_null (u_tenant_id row) (tenantId req)); reflexivity.
Qed.

(** ** Deleting a user *)

Lemma user_by_id_delete_user (id : string) (db : DB) :
  user_by_id id (delete_user id db) = None.
Proof.
  apply find_all_false. intros u Hu. unfold delete_user in Hu.
  cbn [users set_users] in Hu. apply filter_In in Hu as [_ Hu].
  now apply negb_true_iff in Hu.
Qed.

(** X14.  When a tenant_admin deletes another user of their own tenant
    through API 11, the answer is 200 "User deleted successfully", no row
    with that id is left, every user with another id is kept, and no task
    stays assigned to the deleted user: each such task is kept with
    [assigned_to] NULL and every other task is untouched. *)
Theorem api11_deletes_and_unassigns (req : Request) (db : DB) (row : UserRow) :
  role (user req) = "tenant_admin" ->
  falsy (tenantId req) = false ->
  userId (user req) <> p_userId (params req) ->
  user_by_id (p_userId (params req)) db = Some row ->
  u_tenant_id row = tenantId req ->
  let id := p_userId (params req) in
  let db' := fst (run (api11_delete_user req) db) in
  snd (run (api11_delete_user req) db) = ok "User deleted successfully"
  /\ user_by_id id db' = None
  /\ (forall u, In u (users db) -> u_id u <> id -> In u (users db'))
  /\ (forall k, In k (tasks db') -> assigned_to k <> Some id)
  /\ map k_id (tasks db') = map k_id (tasks db)
  /\ (forall k, In k (tasks db) -> assigned_to k <> Some id -> In k (tasks db')).
Proof.
  intros Hrole Hten Hother Hu Hsame. cbv zeta.
  rewrite (api11_absent_target req db Hrole Hten Hother), Hu, Hsame.
  assert (E : strict_eq_null (tenantId req) (tenantId req) = true).
  { destruct (tenantId req); simpl; [apply String.eqb_refl | reflexivity]. }
  rewrite E. cbn [fst snd]. split; [reflexivity | split; [| split; [| split; [| split]]]].
  - apply user_by_id_delete_user.
  - intros u Hin Hne. unfold delete_user. cbn [users set_users unassign_tasks set_tasks].
    apply filter_In. split; [exact Hin |].
    destruct (String.eqb_spec (u_id u) (p_userId (params req)));
      [contradiction | reflexivity].
  - intros k Hk. cbn [delete_user unassign_tasks tasks set_users set_tasks] in Hk.
    apply in_map_iff in Hk as [k0 [Hk0 _]].
    destruct (sql_eq (assigned_to k0) (Some (p_userId (params req)))) eqn:S;
      subst k; simpl.
    + discriminate.
    + intro H. rewrite H in S. simpl in S. now rewrite String.eqb_refl in S.
  - cbn [delete_user unassign_tasks tasks set_users set_tasks]. rewrite map_map.
    apply map_ext. intro k.
    now destruct (sql_eq (assigned_to k) (Some (p_userId (params req)))).
  - intros k Hin Hne. cbn [delete_user unassign_tasks tasks set_users set_tasks].
    apply in_map_iff. exists k. split; [| exact Hin].
    rewrite sql_eq_false; [reflexivity | exact Hne].
Qed.

(** The tenant_admin of T1 deletes the member who holds tasks k1 and k2. *)
Lemma api11_deletes_and_unassigns_witness :
  let req := Demo.request Demo.admin1 "tenant_admin" (Some Demo.T1)
               (on_user Demo.member1) Demo.no_body in
  let db' := fst (run (api11_delete_user req) Sample.db) in
  (map assigned_to (tasks Sample.db)
   = [Some Demo.member1; Some Demo.member1; Some Demo.admin1]
   /\ map assigned_to (tasks db') = [None; None; Some Demo.admin1])
  /\ snd (run (api11_delete_user req) Sample.db) = ok "User deleted successfully"
  /\ user_by_id Demo.member1 db' = None
  /\ (forall u, In u (users Sample.db) -> u_id u <> Demo.member1 -> In u (users db'))
  /\ (forall k, In k (tasks db') -> assigned_to k <> Some Demo.member1)
  /\ map k_id (tasks db') = map k_id (tasks Sample.db)
  /\ (forall k, In k (tasks Sample.db) -> assigned_to k <> Some Demo.member1 ->
                In k (tasks db')).
Proof.
  intro req. split; [split; reflexivity |].
  apply (api11_deletes_and_unassigns req Sample.db
           (Demo.user_row Demo.member1 (Some Demo.T1) "user@demo.com"
                          "Demo User" "user"));
    try reflexivity; discriminate.
Defined.

(** X15.  API 11 refuses a tenant_admin who names a user of another tenant
    with 403 "Forbidden"; neither the user nor any task is touched. *)
Theorem api11_other_tenant_forbidden (req : Request) (db : DB) (row : UserRow) :
  role (user req) = "tenant_admin" ->
  falsy (tenantId req) = false ->
  userId (user req) <> p_userId (params req) ->
  user_by_id (p_userId (params req)) db = Some row ->
  u_tenant_id row <> tenantId req ->
  run (api11_delete_user req) db = (db, deny 403 "Forbidden").
Proof.
  intros Hrole Hten Hother Hu Hdiff.
  rewrite (api11_absent_target req db Hrole Hten Hother), Hu.
  now rewrite (strict_eq_null_false _ _ Hdiff).
Qed.

(** The tenant_admin of T1 names the member of T2. *)
Lemma api11_other_tenant_forbidden_witness :
  run (api11_delete_user
         (Demo.request Demo.admin1 "tenant_admin" (Some Demo.T1)
                       (on_user Demo.member2) Demo.no_body))
      Sample.db
  = (Sample.db, deny 403 "Forbidden").
Proof.
  apply (api11_other_tenant_forbidden
           (Demo.request Demo.admin1 "tenant_admin" (Some Demo.T1)
                         (on_user Demo.member2) Demo.no_body)
           Sample.db
           (Demo.user_row Demo.member2 (Some Demo.T2) "user@other.com"
                          "Other User" "user"));
    try reflexivity; discriminate.
Defined.

Lemma delete_user_route_cases
      (requireRole : string -> Middleware) (req : Request) (db : DB) :
  fst (run (delete_user_route requireRole req) db) = db
  \/ fst (run (delete_user_route requireRole req) db) =
     set_audit_logs
       (audit_logs db ++ [audit req "DELETE_USER" "user" (p_userId (params req))])
       (delete_user_in_tenant (p_userId (params req)) (tenantId req) db).
Proof.
  unfold delete_user_route. simpl.
  destruct (requireRole "tenant_admin" req); [now left |].
  destruct (tenantGuard req); [now left |].
  unfold delete_user_handler.
  destruct (String.eqb (userId (user req)) (p_userId (params req)));
    [now left | now right].
Qed.

(** X16.  The first-registered DELETE /users/:userId can only remove rows
    that carry both the id of the path and the tenant id of the claims.
    Whatever the request, every user of another tenant and every user with
    another id is still there afterwards; the tasks are not touched, so the
    tasks of a deleted user stay assigned to the id that is gone. *)
Theorem delete_user_route_stays_in_tenant
        (requireRole : string -> Middleware) (req : Request) (db : DB) :
  let db' := fst (run (delete_user_route requireRole req) db) in
  (forall u, In u (users db) ->
             u_tenant_id u <> tenantId req \/ u_id u <> p_userId (params req) ->
             In u (users db'))
  /\ (forall u, In u (users db') -> In u (users db))
  /\ tasks db' = tasks db
  /\ projects db' = projects db.
Proof.
  cbv zeta.
  destruct (delete_user_route_cases requireRole req db) as [E | E]; rewrite E.
  - repeat split; auto.
  - cbn [users tasks projects set_audit_logs delete_user_in_tenant set_users].
    repeat split.
    + intros u Hin Hkeep. apply filter_In. split; [exact Hin |].
      apply negb_true_iff. apply andb_false_iff.
      destruct Hkeep as [Ht | Hi].
      * right. now apply sql_eq_false.
      * left. now apply String.eqb_neq.
    + intros u Hin. now apply filter_In in Hin.
Qed.

(** X17.  Once [requireRole("tenant_admin")] and [tenantGuard] have let the
    request through and the target is not the actor, the first-registered
    DELETE /users/:userId is answered 200 "User deleted"; no row with the id
    of the path is left in the tenant of the claims, and one DELETE_USER
    audit entry naming that id is written. *)
Theorem delete_user_route_removes_target
        (requireRole : string -> Middleware) (req : Request) (db : DB) :
  requireRole "tenant_admin" req = None ->
  tenantGuard req = None ->
  userId (user req) <> p_userId (params req) ->
  let db' := fst (run (delete_user_route requireRole req) db) in
  snd (run (delete_user_route requireRole req) db) = ok "User deleted"
  /\ (forall u t, In u (users db') -> tenantId req = Some t ->
                  u_id u = p_userId (params req) -> u_tenant_id u <> Some t)
  /\ audit_logs db' =
     (audit_logs db ++ [audit req "DELETE_USER" "user" (p_userId (params req))])%list.
Proof.
  intros Hrr Hg Hother. cbv zeta.
  unfold delete_user_route. simpl. rewrite Hrr, Hg.
  unfold delete_user_handler.
  destruct (String.eqb_spec (userId (user req)) (p_userId (params req)));
    [contradiction |].
  simpl. repeat split.
  intros u t Hin Hten Hid Hut. apply filter_In in Hin as [_ Hin].
  apply negb_true_iff in Hin. rewrite Hid, String.eqb_refl, Hten, Hut in Hin.
  simpl in Hin. now rewrite String.eqb_refl in Hin.
Qed.

(** The tenant_admin of T1 deletes the member of T1. *)
Lemma delete_user_route_removes_target_witness :
  let req := Demo.request Demo.admin1 "tenant_admin" (Some Demo.T1)
               (on_user Demo.member1) Demo.no_body in
  let db' := fst (run (delete_user_route Demo.requireRole req) Sample.db) in
  (map u_id (users db') = [Demo.superadmin; Demo.admin1; Demo.member2]
   /\ tasks db' = tasks Sample.db)
  /\ snd (run (delete_user_route Demo.requireRole req) Sample.db) = ok "User deleted"
  /\ (forall u t, In u (users db') -> Some Demo.T1 = Some t ->
                  u_id u = Demo.member1 -> u_tenant_id u <> Some t)
  /\ audit_logs db' = [audit req "DELETE_USER" "user" Demo.member1].
Proof.
  intro req. split; [split; reflexivity |].
  apply (delete_user_route_removes_target Demo.requireRole req Sample.db);
    try reflexivity; discriminate.
Defined.

(** ** Listing users: access and order *)

Definition newest_view_first (a b : UserView) : Prop :=
  v_created_at b <= v_created_at a.

Lemma view_sorted (l : list UserRow) :
  Sorted newest_first l -> Sorted newest_view_first (map view l).
Proof.
  induction 1 as [| u l Hs IH Hh]; simpl; constructor.
  - exact IH.
  - destruct Hh as [| v l Hv]; simpl; constructor. exact Hv.
Qed.

Lemma users_of_tenant_sorted (tid : option string) (db : DB) :
  Sorted newest_view_first (users_of_tenant tid db).
Proof. apply view_sorted, order_by_created_at_desc_sorted. Qed.

Lemma users_of_tenant_length (tid : option string) (db : DB) :
  length (users_of_tenant tid db) = count_users tid db.
Proof.
  unfold count_users.
  rewrite (Permutation_length (users_of_tenant_perm tid db)). apply length_map.
Qed.

(** X18.  In the first-registered GET /tenants/:tenantId/users an actor who
    is not a super_admin reads the user list only under the path of their
    own tenant: for any other path the answer is 403 "Forbidden".  Under
    their own path the answer is 200 with one row for each user of the
    tenant, the most recently created first. *)
Theorem list_users_own_tenant_only (req : Request) (db : DB) :
  role (user req) <> "super_admin" ->
  falsy (tenantId req) = false ->
  (tenantId req <> Some (p_tenantId (params req)) ->
   run (list_users req) db = (db, deny 403 "Forbidden"))
  /\ (tenantId req = Some (p_tenantId (params req)) ->
      exists rows,
        run (list_users req) db =
        (db, Sent {| status := 200; success := true; message := None;
                     data := Rows rows |})
        /\ Sorted newest_view_first rows
        /\ length rows = count_users (tenantId req) db).
Proof.
  intros Hrole Hten.
  pose proof (tenantGuard_bound req Hrole Hten) as Hg.
  rewrite (list_users_run req db Hg).
  destruct (String.eqb_spec (role (user req)) "super_admin"); [contradiction |].
  split.
  - intro Hdiff.
    assert (E : strict_eq (p_tenantId (params req)) (tenantId req) = false).
    { destruct (tenantId req) as [s |]; simpl; [| reflexivity].
      destruct (String.eqb_spec (p_tenantId (params req)) s); [| reflexivity].
      subst. now destruct Hdiff. }
    now rewrite E.
  - intro Hpath.
    assert (E : strict_eq (p_tenantId (params req)) (tenantId req) = true).
    { rewrite Hpath. apply strict_eq_refl. }
    rewrite E. simpl.
    exists (users_of_tenant (tenantId req) db).
    split; [reflexivity | split].
    + apply users_of_tenant_sorted.
    + apply users_of_tenant_length.
Qed.

(** A member of T1 asks for the users of T2, then for those of T1. *)
Lemma list_users_own_tenant_only_witness :
  let req tid := Demo.request Demo.member1 "user" (Some Demo.T1)
                              (Sample.path tid) Demo.no_body in
  run (list_users (req Demo.T2)) Sample.db = (Sample.db, deny 403 "Forbidden")
  /\ exists rows,
       run (list_users (req Demo.T1)) Sample.db =
       (Sample.db, Sent {| status := 200; success := true; message := None;
                           data := Rows rows |})
       /\ Sorted newest_view_first rows
       /\ length rows = count_users (Some Demo.T1) Sample.db.
Proof.
  intro req. split.
  - apply (proj1 (list_users_own_tenant_only (req Demo.T2) Sample.db
                    ltac:(discriminate) eq_refl)).
    discriminate.
  - apply (proj2 (list_users_own_tenant_only (req Demo.T1) Sample.db
                    ltac:(discriminate) eq_refl)).
    reflexivity.
Defined.

(** X19.  API 9 makes no comparison with the claims: every request that
    passes [tenantGuard] is answered 200 with the users of the tenant named
    in the path, most recently created first, and [total] is the number of
    rows, which is the user count of that tenant. *)
Theorem api9_lists_path_tenant (req : Request) (db : DB) :
  tenantGuard req = None ->
  exists rows,
    run (api9_list_users req) db =
    (db, Sent {| status := 200; success := true; message := None;
                 data := UsersTotal rows
                           (count_users (Some (p_tenantId (params req))) db) |})
    /\ Permutation rows
         (map view (filter (fun u => sql_eq (u_tenant_id u)
                                            (Some (p_tenantId (params req))))
                           (users db)))
    /\ Sorted newest_view_first rows.
Proof.
  intro Hg. exists (users_of_tenant (Some (p_tenantId (params req))) db).
  rewrite (api9_selects_by_path_tenant req db Hg), users_of_tenant_length.
  split; [reflexivity | split].
  - apply users_of_tenant_perm.
  - apply users_of_tenant_sorted.
Qed.

(** A member of T1 reads the users of T2. *)
Lemma api9_lists_path_tenant_witness :
  exists rows,
    run (api9_list_users
           (Demo.request Demo.member1 "user" (Some Demo.T1)
                         (Sample.path Demo.T2) Demo.no_body))
        Sample.db =
    (Sample.db, Sent {| status := 200; success := true; message := None;
                        data := UsersTotal rows 1 |})
    /\ Permutation rows
         [view (Demo.user_row Demo.member2 (Some Demo.T2) "user@other.com"
                              "Other User" "user")]
    /\ Sorted newest_view_first rows.
Proof.
  apply (api9_lists_path_tenant
           (Demo.request Demo.member1 "user" (Some Demo.T1)
                         (Sample.path Demo.T2) Demo.no_body)
           Sample.db).
  reflexivity.
Defined.

(** ** Project routes *)

Lemma filter_none {A} (f : A -> bool) (l : list A) :
  (forall x, In x l -> f x = false) -> filter f l = [].
Proof.
  induction l as [| a l IH]; intro H; simpl.
  - reflexivity.
  - rewrite (H a (or_introl eq_refl)). apply IH.
    intros x Hx. apply H. now right.
Qed.

Lemma project_in_tenant_found (id : string) (tid : option string) (db : DB)
      (p : ProjectRow) :
  project_in_tenant id tid db = Some p ->
  In p (projects db) /\ p_id p = id /\ sql_eq (p_tenant_id p) tid = true.
Proof.
  intro H. apply find_some in H as [Hin H].
  apply andb_true_iff in H as [H1 H2]. apply String.eqb_eq in H1. auto.
Qed.

Lemma guarded_pass {A} (m : Middleware) (h : Request -> DB -> Reply A)
      (req : Request) (db : DB) :
  m req = None -> guarded m h req db = h req db.
Proof. intro H. unfold guarded. now rewrite H. Qed.

(** X20.  A project of another tenant does not exist for the actor.  When
    every project with the id of the path belongs to a tenant other than the
    one of the claims, GET /:projectId, API 14 and API 15 all answer 404
    "Project not found", before any role or creator check, and the update
    and the delete leave the database as it was. *)
Theorem projects_of_other_tenants_hidden (env : Env) (req : Request) (db : DB) :
  tenantGuard req = None ->
  (forall p, In p (projects db) -> p_id p = p_projectId (params req) ->
             p_tenant_id p <> tenantId req) ->
  get_project req db =
    {| r_status := 404; r_success := false;
       r_message := Some "Project not found"; r_data := None |}
  /\ run (update_project env req) db = (db, deny 404 "Project not found")
  /\ run (delete_project req) db = (db, deny 404 "Project not found").
Proof.
  intros Hg Hother. split.
  - unfold get_project. rewrite (guarded_pass _ _ _ _ Hg).
    unfold get_project_handler, project_details.
    rewrite filter_none; [reflexivity |].
    intros p Hp.
    destruct (String.eqb_spec (p_id p) (p_projectId (params req))) as [E | _];
      [| reflexivity].
    simpl. apply sql_eq_false. now apply Hother.
  - now apply project_of_other_tenant_not_found.
Qed.

(** A member of T1 names project p3 of T2. *)
Lemma projects_of_other_tenants_hidden_witness :
  let req := Demo.request Demo.member1 "user" (Some Demo.T1)
               (Sample.on_project "p3") (Demo.project_body "Mine now") in
  get_project req Sample.db =
    {| r_status := 404; r_success := false;
       r_message := Some "Project not found"; r_data := None |}
  /\ run (update_project (Demo.env "x") req) Sample.db
     = (Sample.db, deny 404 "Project not found")
  /\ run (delete_project req) Sample.db = (Sample.db, deny 404 "Project not found").
Proof.
  intro req.
  apply (projects_of_other_tenants_hidden (Demo.env "x") req Sample.db);
    [reflexivity |].
  intros p Hp E. simpl in Hp.
  repeat (destruct Hp as [<- | Hp]; [try discriminate E; discriminate |]).
  destruct Hp.
Defined.

(** X21.  A project of the actor's tenant may be updated or deleted only by
    a tenant_admin or by its creator: for anyone else API 14 and API 15
    answer 403 "Forbidden" and write nothing. *)
Theorem project_change_needs_admin_or_creator
        (env : Env) (req : Request) (db : DB) (project : ProjectRow) :
  tenantGuard req = None ->
  project_in_tenant (p_projectId (params req)) (tenantId req) db = Some project ->
  role (user req) <> "tenant_admin" ->
  created_by project <> userId (user req) ->
  run (update_project env req) db = (db, deny 403 "Forbidden")
  /\ run (delete_project req) db = (db, deny 403 "Forbidden").
Proof.
  intros Hg Hp Hrole Hcreator.
  unfold update_project, delete_project. rewrite !(chain_pass _ _ _ Hg).
  unfold update_project_handler, delete_project_handler. simpl. rewrite Hp.
  destruct (String.eqb_spec (role (user req)) "tenant_admin"); [contradiction |].
  destruct (String.eqb_spec (created_by project) (userId (user req)));
    [contradiction |].
  split; reflexivity.
Qed.

(** A member of T1 names project p1, created by the tenant_admin. *)
Lemma project_change_needs_admin_or_creator_witness :
  let req := Demo.request Demo.member1 "user" (Some Demo.T1)
               (Sample.on_project "p1") (Demo.project_body "Mine now") in
  run (update_project (Demo.env "x") req) Sample.db = (Sample.db, deny 403 "Forbidden")
  /\ run (delete_project req) Sample.db = (Sample.db, deny 403 "Forbidden").
Proof.
  intro req.
  apply (project_change_needs_admin_or_creator (Demo.env "x") req Sample.db
           (Demo.project_row "p1" Demo.T1 "Alpha" Demo.admin1));
    try reflexivity; discriminate.
Defined.

(** X22.  When the tenant_admin or the creator deletes a project of the
    tenant, API 15 answers 200 "Project deleted successfully"; no project
    with that id is left, every project with another id is kept, and one
    DELETE_PROJECT audit entry is written. *)
Theorem delete_project_removes (req : Request) (db : DB) (project : ProjectRow) :
  tenantGuard req = None ->
  project_in_tenant (p_projectId (params req)) (tenantId req) db = Some project ->
  role (user req) = "tenant_admin" \/ created_by project = userId (user req) ->
  let id := p_projectId (params req) in
  let db' := fst (run (delete_project req) db) in
  snd (run (delete_project req) db) = ok "Project deleted successfully"
  /\ (forall p, In p (projects db') -> p_id p <> id)
  /\ (forall p, In p (projects db) -> p_id p <> id -> In p (projects db'))
  /\ audit_logs db' =
     (audit_logs db ++ [audit req "DELETE_PROJECT" "project" id])%list.
Proof.
  intros Hg Hp Hmay. cbv zeta.
  destruct (project_in_tenant_found _ _ _ _ Hp) as [_ [Hid _]].
  unfold delete_project. rewrite (chain_pass _ _ _ Hg).
  unfold delete_project_handler. simpl. rewrite Hp.
  assert (E : negb (String.eqb (role (user req)) "tenant_admin")
              && negb (String.eqb (created_by project) (userId (user req))) = false).
  { destruct Hmay as [-> | ->]; [reflexivity |].
    rewrite String.eqb_refl. apply andb_false_r. }
  rewrite E, Hid. simpl. repeat split.
  - intros p Hin. apply filter_In in Hin as [_ Hin].
    apply negb_true_iff in Hin. now apply String.eqb_neq.
  - intros p Hin Hne. apply filter_In. split; [exact Hin |].
    apply negb_true_iff. now apply String.eqb_neq.
Qed.

(** The member of T1 deletes project p2, which they created. *)
Lemma delete_project_removes_witness :
  let req := Demo.request Demo.member1 "user" (Some Demo.T1)
               (Sample.on_project "p2") Demo.no_body in
  let db' := fst (run (delete_project req) Sample.db) in
  map p_id (projects db') = ["p1"; "p3"]
  /\ snd (run (delete_project req) Sample.db) = ok "Project deleted successfully"
  /\ (forall p, In p (projects db') -> p_id p <> "p2")
  /\ (forall p, In p (projects Sample.db) -> p_id p <> "p2" -> In p (projects db'))
  /\ audit_logs db' = [audit req "DELETE_PROJECT" "project" "p2"].
Proof.
  intro req. split; [reflexivity |].
  apply (delete_project_removes req Sample.db
           (Demo.project_row "p2" Demo.T1 "Beta" Demo.member1));
    [reflexivity | reflexivity | now right].
Defined.

Lemma find_map_same {A} (f : A -> bool) (g : A -> A) (l : list A) :
  (forall x, f (g x) = f x) -> find f (map g l) = option_map g (find f l).
Proof.
  intro H. induction l as [| a l IH]; simpl; [reflexivity |].
  rewrite H. now destruct (f a).
Qed.

(** X23.  After a tenant_admin or the creator has updated a project
    through API 14, the project read back holds exactly the name,
    description and status that the answer reports, and each of the three
    is the value of the body where it gives one and the stored value where
    the field is absent or null.  Its [updated_at] is the time of the
    statement; its id, tenant, creator and creation time are unchanged, and
    one UPDATE_PROJECT audit entry is written. *)
Theorem update_project_reads_back
        (env : Env) (req : Request) (db : DB) (project : ProjectRow) :
  tenantGuard req = None ->
  project_in_tenant (p_projectId (params req)) (tenantId req) db = Some project ->
  role (user req) = "tenant_admin" \/ created_by project = userId (user req) ->
  let db' := fst (run (update_project env req) db) in
  exists row,
    project_in_tenant (p_projectId (params req)) (tenantId req) db' = Some row
    /\ snd (run (update_project env req) db) =
       Sent {| status := 200; success := true;
               message := Some "Project updated successfully";
               data := ProjectData (p_projectId (params req))
                         (p_name row) (p_description row) (p_status row) |}
    /\ p_name row = nullish (b_name (body req)) (p_name project)
    /\ p_description row
       = nullish (b_description (body req)) (p_description project)
    /\ p_status row = nullish (b_status (body req)) (p_status project)
    /\ updated_at row = NOW env
    /\ p_id row = p_id project
    /\ p_tenant_id row = p_tenant_id project
    /\ created_by row = created_by project
    /\ p_created_at row = p_created_at project
    /\ audit_logs db' =
       (audit_logs db
          ++ [audit req "UPDATE_PROJECT" "project" (p_projectId (params req))])%list.
Proof.
  intros Hg Hp Hmay. cbv zeta.
  destruct (project_in_tenant_found _ _ _ _ Hp) as [_ [Hid _]].
  unfold update_project. rewrite (chain_pass _ _ _ Hg).
  unfold update_project_handler. simpl. rewrite Hp.
  assert (E : negb (String.eqb (role (user req)) "tenant_admin")
              && negb (String.eqb (created_by project) (userId (user req))) = false).
  { destruct Hmay as [-> | ->]; [reflexivity |].
    rewrite String.eqb_refl. apply andb_false_r. }
  rewrite E, Hid. simpl.
  set (g := fun p : ProjectRow =>
              if String.eqb (p_id p) (p_projectId (params req)) then
                {| p_id := p_id p; p_tenant_id := p_tenant_id p;
                   p_name := COALESCE (to_sql (b_name (body req))) (p_name p);
                   p_description :=
                     COALESCE (to_sql (b_description (body req))) (p_description p);
                   p_status := COALESCE (to_sql (b_status (body req))) (p_status p);
                   created_by := created_by p;
                   p_created_at := p_created_at p; updated_at := NOW env |}
              else p).
  exists (g project).
  assert (Hg' : g project =
                {| p_id := p_id project; p_tenant_id := p_tenant_id project;
                   p_name := COALESCE (to_sql (b_name (body req))) (p_name project);
                   p_description :=
                     COALESCE (to_sql (b_description (body req))) (p_description project);
                   p_status := COALESCE (to_sql (b_status (body req))) (p_status project);
                   created_by := created_by project;
                   p_created_at := p_created_at project; updated_at := NOW env |}).
  { unfold g. now rewrite Hid, String.eqb_refl. }
  split.
  - unfold project_in_tenant, update_project_row.
    cbn [projects set_projects set_audit_logs]. fold g.
    rewrite find_map_same.
    + fold (project_in_tenant (p_projectId (params req)) (tenantId req) db).
      now rewrite Hp.
    + intro p. unfold g. cbv beta.
      destruct (String.eqb (p_id p) (p_projectId (params req))) eqn:H;
        cbn [p_id p_tenant_id]; now rewrite ?H.
  - assert (N1 : forall (f : jsfield string) c, COALESCE (to_sql f) c = nullish f c).
    { now intros [| | a] c. }
    rewrite Hg'.
    cbn [p_id p_name p_description p_status updated_at p_tenant_id created_by
         p_created_at].
    rewrite !N1. repeat split. exact Hid.
Qed.

(** The member of T1 renames project p2, which they created. *)
Lemma update_project_reads_back_witness :
  let req := Demo.request Demo.member1 "user" (Some Demo.T1)
               (Sample.on_project "p2") (Demo.project_body "Beta 2") in
  let db' := fst (run (update_project (Demo.env "x") req) Sample.db) in
  exists row,
    project_in_tenant "p2" (Some Demo.T1) db' = Some row
    /\ snd (run (update_project (Demo.env "x") req) Sample.db) =
       Sent {| status := 200; success := true;
               message := Some "Project updated successfully";
               data := ProjectData "p2"
                         (p_name row) (p_description row) (p_status row) |}
    /\ p_name row = Some "Beta 2"
    /\ p_description row = Some ""
    /\ p_status row = Some "active"
    /\ updated_at row = 1
    /\ p_id row = "p2"
    /\ p_tenant_id row = Some Demo.T1
    /\ created_by row = Demo.member1
    /\ p_created_at row = 0
    /\ audit_logs db' = [audit req "UPDATE_PROJECT" "project" "p2"].
Proof.
  intro req.
  apply (update_project_reads_back (Demo.env "x") req Sample.db
           (Demo.project_row "p2" Demo.T1 "Beta" Demo.member1));
    [reflexivity | reflexivity | now right].
Defined.

(** ** Reading one project *)

Lemma project_details_in (id : string) (tid : option string) (db : DB)
      (d : ProjectDetail) :
  In d (project_details id tid db) <->
  exists p u,
    In p (projects db) /\ p_id p = id /\ sql_eq (p_tenant_id p) tid = true
    /\ In u (users db) /\ u_id u = created_by p /\ d = detail p u.
Proof.
  unfold project_details, creators. rewrite in_flat_map. split.
  - intros [p [Hp Hd]]. apply filter_In in Hp as [Hin Hp].
    apply andb_true_iff in Hp as [H1 H2]. apply String.eqb_eq in H1.
    apply in_map_iff in Hd as [u [Hd Hu]]. apply filter_In in Hu as [Hu1 Hu2].
    apply String.eqb_eq in Hu2. exists p, u. repeat split; auto.
  - intros [p [u [Hin [Hid [Ht [Hu [Hc ->]]]]]]]. exists p. split.
    + apply filter_In. split; [exact Hin |].
      apply andb_true_iff. split; [now apply String.eqb_eq | exact Ht].
    + apply in_map_iff. exists u. split; [reflexivity |].
      apply filter_In. split; [exact Hu | now apply String.eqb_eq].
Qed.

(** X24.  GET /:projectId answers 200 exactly when the claims' tenant holds
    a project with the id of the path and the user row of its creator
    exists; the data are then those of such a project, with the creator's
    full name.  In every other case, also for a project of the tenant whose
    creator row is gone, the answer is 404 "Project not found". *)
Theorem get_project_found_iff (req : Request) (db : DB) :
  tenantGuard req = None ->
  let found := exists p u,
                 In p (projects db) /\ p_id p = p_projectId (params req)
                 /\ sql_eq (p_tenant_id p) (tenantId req) = true
                 /\ In u (users db) /\ u_id u = created_by p in
  (found ->
   exists p u,
     In p (projects db) /\ p_id p = p_projectId (params req)
     /\ sql_eq (p_tenant_id p) (tenantId req) = true
     /\ In u (users db) /\ u_id u = created_by p
     /\ get_project req db =
        {| r_status := 200; r_success := true; r_message := None;
           r_data := Some (detail p u) |})
  /\ (~ found ->
      get_project req db =
      {| r_status := 404; r_success := false;
         r_message := Some "Project not found"; r_data := None |}).
Proof.
  intro Hg. cbv zeta. unfold get_project. rewrite (guarded_pass _ _ _ _ Hg).
  unfold get_project_handler.
  destruct (project_details (p_projectId (params req)) (tenantId req) db)
    as [| d l] eqn:E.
  - split; [| reflexivity].
    intros [p [u [H1 [H2 [H3 [H4 H5]]]]]].
    assert (Hin : In (detail p u)
                     (project_details (p_projectId (params req)) (tenantId req) db)).
    { apply project_details_in. exists p, u. repeat split; auto. }
    rewrite E in Hin. destruct Hin.
  - assert (Hin : In d (project_details (p_projectId (params req)) (tenantId req) db)).
    { rewrite E. now left. }
    apply project_details_in in Hin as [p [u [H1 [H2 [H3 [H4 [H5 ->]]]]]]].
    split.
    + intros _. exists p, u. repeat split; auto.
    + intro Hno. destruct Hno. exists p, u. repeat split; auto.
Qed.

(** Project p9 of T1 was created by a user whose row no longer exists. *)
Lemma get_project_found_iff_witness :
  let req := Demo.request Demo.admin1 "tenant_admin" (Some Demo.T1)
               (Sample.on_project "p9") Demo.no_body in
  let db := Demo.db 25 15 [Demo.project_row "p9" Demo.T1 "Orphan" "gone"] in
  project_in_tenant "p9" (Some Demo.T1) db
  = Some (Demo.project_row "p9" Demo.T1 "Orphan" "gone")
  /\ get_project req db =
     {| r_status := 404; r_success := false;
        r_message := Some "Project not found"; r_data := None |}.
Proof.
  intros req db. split; [reflexivity |].
  apply (proj2 (get_project_found_iff req db eq_refl)).
  intros [p [u [Hp [_ [_ [Hu Hc]]]]]].
  simpl in Hp. destruct Hp as [<- | []]. simpl in Hc, Hu.
  repeat (destruct Hu as [<- | Hu]; [discriminate Hc |]). destruct Hu.
Defined.

(** ** API 13: the project list *)

Lemma insert_newest_perm (x : ProjectItem) (l : list ProjectItem) :
  Permutation (insert_newest x l) (x :: l).
Proof.
  induction l as [| y l IH]; simpl.
  - apply Permutation_refl.
  - destruct (Nat.leb (i_createdAt y) (i_createdAt x)).
    + apply Permutation_refl.
    + eapply perm_trans; [apply perm_skip, IH | apply perm_swap].
Qed.

Lemma order_newest_perm (l : list ProjectItem) : Permutation (order_newest l) l.
Proof.
  induction l as [| x l IH]; simpl.
  - apply perm_nil.
  - eapply perm_trans; [apply insert_newest_perm | apply perm_skip, IH].
Qed.

Definition newest_item_first (a b : ProjectItem) : Prop :=
  i_createdAt b <= i_createdAt a.

Lemma insert_newest_sorted (x : ProjectItem) (l : list ProjectItem) :
  Sorted newest_item_first l -> Sorted newest_item_first (insert_newest x l).
Proof.
  induction l as [| y l IH]; intro H; simpl.
  - repeat constructor.
  - destruct (Nat.leb_spec (i_createdAt y) (i_createdAt x)) as [Hle | Hlt].
    + constructor; [exact H | constructor; exact Hle].
    + inversion H as [| ? ? Hs Hh]; subst.
      constructor; [apply IH, Hs |].
      destruct l as [| z l]; simpl.
      * constructor. unfold newest_item_first. lia.
      * destruct (Nat.leb (i_createdAt z) (i_createdAt x)).
        -- constructor. unfold newest_item_first. lia.
        -- inversion Hh; subst. now constructor.
Qed.

Lemma order_newest_sorted (l : list ProjectItem) :
  Sorted newest_item_first (order_newest l).
Proof.
  induction l as [| x l IH]; simpl.
  - constructor.
  - apply insert_newest_sorted, IH.
Qed.

Lemma Sorted_skipn {A} (R : A -> A -> Prop) (n : nat) (l : list A) :
  Sorted R l -> Sorted R (skipn n l).
Proof.
  revert l. induction n as [| n IH]; intros l H; simpl; [exact H |].
  destruct l as [| a l]; [constructor |].
  apply IH. now inversion H.
Qed.

Lemma Sorted_firstn {A} (R : A -> A -> Prop) (n : nat) (l : list A) :
  Sorted R l -> Sorted R (firstn n l).
Proof.
  revert l. induction n as [| n IH]; intros l H; simpl; [constructor |].
  destruct l as [| a l]; [constructor |].
  inversion H as [| ? ? Hs Hh]; subst. constructor; [now apply IH |].
  destruct n; simpl; [constructor |].
  destruct Hh; constructor. assumption.
Qed.

Lemma In_window {A} (n m : nat) (l : list A) (x : A) :
  In x (firstn n (skipn m l)) -> In x l.
Proof.
  intro H.
  rewrite <- (firstn_skipn m l). apply in_or_app. right.
  rewrite <- (firstn_skipn n (skipn m l)). apply in_or_app. now left.
Qed.

Lemma task_counts_le (pid : string) (db : DB) :
  completed_task_count pid db <= task_count pid db.
Proof.
  unfold completed_task_count, task_count.
  induction (tasks db) as [| k l IH]; simpl; [lia |].
  destruct (String.eqb (project_id k) pid); simpl.
  - destruct (String.eqb (k_status k) "completed"); simpl; lia.
  - exact IH.
Qed.

Lemma project_rows_in (ILIKE : string -> string -> bool) (q : ListQuery)
      (tid : option string) (db : DB) (i : ProjectItem) :
  In i (project_rows ILIKE q tid db) ->
  exists p u,
    In p (projects db) /\ listed ILIKE q tid p = true
    /\ In u (users db) /\ u_id u = created_by p /\ i = item db p u.
Proof.
  unfold project_rows. intro H.
  apply (Permutation_in _ (order_newest_perm _)) in H.
  apply in_flat_map in H as [p [Hp Hi]].
  apply filter_In in Hp as [Hin Hl].
  apply in_map_iff in Hi as [u [Hi Hu]]. unfold creators in Hu.
  apply filter_In in Hu as [Hu1 Hu2]. apply String.eqb_eq in Hu2.
  exists p, u. repeat split; auto.
Qed.

(** [Number.MAX_SAFE_INTEGER], 2^53 - 1: up to it the integers are exact
    JavaScript numbers, and PostgreSQL reads them as [bigint]. *)
Definition MAX_SAFE_INTEGER : Z := 9007199254740991%Z.

(** X25.  With a page of at least 1 and a limit of at least 0 (1 and 20 when
    absent), where page, limit, the offset (page - 1) * limit and the
    project count of the tenant do not exceed [Number.MAX_SAFE_INTEGER],
    API 13 answers 200 with the window of [limit] rows after that offset of
    the ordered rows, hence with at most [limit] projects.  Each one is a
    project of the claims' tenant whose creator row exists, has the status
    asked for when [status] is given and a name matching the pattern when
    [search] is given.  [total] and [totalPages] are computed from the count
    of all projects of the tenant: they do not depend on [status] or
    [search], nor on whether the creator rows exist. *)
Theorem list_projects_page
        (ILIKE : string -> string -> bool) (pg_error : Z -> Z -> string)
        (q : ListQuery) (req : Request) (db : DB) :
  tenantGuard req = None ->
  let page := match q_page q with Some n => n | None => 1%Z end in
  let lim := match q_limit q with Some n => n | None => 20%Z end in
  (1 <= page <= MAX_SAFE_INTEGER)%Z ->
  (0 <= lim <= MAX_SAFE_INTEGER)%Z ->
  ((page - 1) * lim <= MAX_SAFE_INTEGER)%Z ->
  (Z.of_nat (count_projects (tenantId req) db) <= MAX_SAFE_INTEGER)%Z ->
  exists items,
    list_projects ILIKE pg_error q req db =
    {| r_status := 200; r_success := true; r_message := None;
       r_data :=
         Some {| page_projects := items;
                 total := count_projects (tenantId req) db;
                 pagination :=
                   {| currentPage := page;
                      totalPages :=
                        Math_ceil_div (count_projects (tenantId req) db) lim;
                      limit := lim |} |} |}
    /\ items = firstn (Z.to_nat lim)
                      (skipn (Z.to_nat ((page - 1) * lim))
                             (project_rows ILIKE q (tenantId req) db))
    /\ Permutation (project_rows ILIKE q (tenantId req) db)
                   (flat_map (fun p => map (item db p) (creators p db))
                             (filter (listed ILIKE q (tenantId req)) (projects db)))
    /\ length items <= Z.to_nat lim
    /\ Forall (fun i =>
                 exists p u,
                   In p (projects db) /\ i = item db p u
                   /\ sql_eq (p_tenant_id p) (tenantId req) = true
                   /\ In u (users db) /\ u_id u = created_by p
                   /\ (falsy (q_status q) = false -> p_status p = q_status q)
                   /\ (falsy (q_search q) = false ->
                       exists n s, p_name p = Some n /\ q_search q = Some s
                                   /\ ILIKE n ("%" ++ s ++ "%") = true))
              items.
Proof.
  intros Hg page lim Hpage Hlim _ _.
  unfold list_projects. rewrite (guarded_pass _ _ _ _ Hg).
  unfold list_projects_handler. fold page. fold lim.
  assert (E : Z.ltb ((page - 1) * lim) 0 || Z.ltb lim 0 = false).
  { apply orb_false_iff. split; apply Z.ltb_ge; nia. }
  rewrite E.
  eexists. split; [reflexivity | split; [reflexivity | split; [| split]]].
  - apply order_newest_perm.
  - apply firstn_le_length.
  - apply Forall_forall. intros i Hi. apply In_window in Hi.
    apply project_rows_in in Hi as [p [u [Hp [Hl [Hu [Hc ->]]]]]].
    unfold listed in Hl.
    apply andb_true_iff in Hl as [Hl Hsearch].
    apply andb_true_iff in Hl as [Hten Hstatus].
    exists p, u. repeat split; auto.
    + intro F. rewrite F in Hstatus. now apply sql_eq_true.
    + intro F. rewrite F in Hsearch.
      destruct (p_name p) as [n |]; [| discriminate].
      destruct (q_search q) as [s |]; [| discriminate].
      exists n, s. auto.
Qed.

(** A pattern match that accepts only the name "Alpha". *)
Definition only_alpha (n pattern : string) : bool := String.eqb n "Alpha".

Definition no_message (lim offset : Z) : string := "".

(** The tenant_admin of T1 searches the first page. *)
Lemma list_projects_page_witness :
  let q := {| q_status := Some "active"; q_search := Some "alp";
              q_page := None; q_limit := None |} in
  let req := Demo.request Demo.admin1 "tenant_admin" (Some Demo.T1)
                          Demo.no_params Demo.no_body in
  exists items,
    list_projects only_alpha no_message q req Sample.db =
    {| r_status := 200; r_success := true; r_message := None;
       r_data :=
         Some {| page_projects := items;
                 total := 2;
                 pagination := {| currentPage := 1; totalPages := Some 1%Z;
                                  limit := 20 |} |} |}
    /\ items = firstn 20 (skipn 0 (project_rows only_alpha q (Some Demo.T1)
                                                Sample.db))
    /\ Permutation (project_rows only_alpha q (Some Demo.T1) Sample.db)
                   (flat_map (fun p => map (item Sample.db p) (creators p Sample.db))
                             (filter (listed only_alpha q (Some Demo.T1))
                                     (projects Sample.db)))
    /\ length items <= 20
    /\ Forall (fun i =>
                 exists p u,
                   In p (projects Sample.db) /\ i = item Sample.db p u
                   /\ sql_eq (p_tenant_id p) (Some Demo.T1) = true
                   /\ In u (users Sample.db) /\ u_id u = created_by p
                   /\ (falsy (Some "active") = false -> p_status p = Some "active")
                   /\ (falsy (Some "alp") = false ->
                       exists n s, p_name p = Some n /\ Some "alp" = Some s
                                   /\ only_alpha n ("%" ++ s ++ "%") = true))
              items.
Proof.
  intros q req.
  apply (list_projects_page only_alpha no_message q req Sample.db eq_refl);
    vm_compute; try split; discriminate.
Defined.

(** X26.  A page below 1 with a positive limit, or a negative limit, makes
    the query of API 13 fail on its OFFSET or LIMIT: the answer is 500 with
    the message of the database error and no data, whatever the tenant
    holds. *)
Theorem list_projects_bad_paging
        (ILIKE : string -> string -> bool) (pg_error : Z -> Z -> string)
        (q : ListQuery) (req : Request) (db : DB) :
  tenantGuard req = None ->
  let page := match q_page q with Some n => n | None => 1%Z end in
  let lim := match q_limit q with Some n => n | None => 20%Z end in
  ((page < 1)%Z /\ (0 < lim)%Z) \/ (lim < 0)%Z ->
  list_projects ILIKE pg_error q req db =
  {| r_status := 500; r_success := false;
     r_message := Some (pg_error lim ((page - 1) * lim)%Z); r_data := None |}.
Proof.
  intros Hg page lim Hbad.
  unfold list_projects. rewrite (guarded_pass _ _ _ _ Hg).
  unfold list_projects_handler. fold page. fold lim.
  assert (E : Z.ltb ((page - 1) * lim) 0 || Z.ltb lim 0 = true).
  { apply orb_true_iff. destruct Hbad as [[H1 H2] | H].
    - left. apply Z.ltb_lt. nia.
    - right. now apply Z.ltb_lt. }
  now rewrite E.
Qed.

(** [?page=0] with the default limit. *)
Lemma list_projects_bad_paging_witness :
  list_projects only_alpha no_message
                {| q_status := None; q_search := None;
                   q_page := Some 0%Z; q_limit := None |}
                (Demo.request Demo.admin1 "tenant_admin" (Some Demo.T1)
                              Demo.no_params Demo.no_body)
                Sample.db =
  {| r_status := 500; r_success := false;
     r_message := Some (no_message 20 (-20)); r_data := None |}.
Proof.
  apply (list_projects_bad_paging only_alpha no_message
           {| q_status := None; q_search := None;
              q_page := Some 0%Z; q_limit := None |}
           (Demo.request Demo.admin1 "tenant_admin" (Some Demo.T1)
                         Demo.no_params Demo.no_body)
           Sample.db eq_refl).
  left. split; reflexivity.
Defined.

(** X27.  Every list API 13 returns is ordered by creation time, newest
    first, and in each element [completedTaskCount] counts some of the tasks
    [taskCount] counts, so it never exceeds it. *)
Theorem list_projects_order_and_counts
        (ILIKE : string -> string -> bool) (pg_error : Z -> Z -> string)
        (q : ListQuery) (req : Request) (db : DB) (page : ProjectsPage) :
  r_data (list_projects ILIKE pg_error q req db) = Some page ->
  Sorted newest_item_first (page_projects page)
  /\ Forall (fun i => completedTaskCount i <= taskCount i) (page_projects page).
Proof.
  unfold list_projects, guarded.
  destruct (tenantGuard req); [discriminate |].
  unfold list_projects_handler.
  destruct (_ || _); [discriminate |].
  cbn [r_data]. intro H. injection H as <-. cbn [page_projects]. split.
  - apply Sorted_firstn, Sorted_skipn, order_newest_sorted.
  - apply Forall_forall. intros i Hi. apply In_window in Hi.
    apply project_rows_in in Hi as [p [u [_ [_ [_ [_ ->]]]]]].
    cbn [item completedTaskCount taskCount]. apply task_counts_le.
Qed.

(** Project p1 has two tasks, one of them completed. *)
Lemma list_projects_order_and_counts_witness :
  let page :=
    {| page_projects :=
         [ item Sample.db (Demo.project_row "p1" Demo.T1 "Alpha" Demo.admin1)
                (Demo.user_row Demo.admin1 (Some Demo.T1) "admin@demo.com"
                               "Demo Admin" "tenant_admin");
           item Sample.db (Demo.project_row "p2" Demo.T1 "Beta" Demo.member1)
                (Demo.user_row Demo.member1 (Some Demo.T1) "user@demo.com"
                               "Demo User" "user") ];
       total := 2;
       pagination := {| currentPage := 1; totalPages := Some 1%Z; limit := 20 |} |} in
  map (fun i => (taskCount i, completedTaskCount i)) (page_projects page)
  = [(2, 1); (1, 0)]
  /\ Sorted newest_item_first (page_projects page)
  /\ Forall (fun i => completedTaskCount i <= taskCount i) (page_projects page).
Proof.
  intro page. split; [reflexivity |].
  apply (list_projects_order_and_counts only_alpha no_message
           {| q_status := None; q_search := None; q_page := None; q_limit := None |}
           (Demo.request Demo.admin1 "tenant_admin" (Some Demo.T1)
                         Demo.no_params Demo.no_body)
           Sample.db page).
  reflexivity.
Defined.

(** ** A super_admin without a tenant id *)

(** X28.  The claims of a super_admin that carry no tenant id pass
    [tenantGuard] but select no tenant: creating a project throws on the
    missing tenant row and writes nothing, the project list is empty with a
    total of 0, and reading, updating or deleting any project id is answered
    404, whatever the database holds. *)
Theorem super_admin_reaches_no_project
        (env : Env) (ILIKE : string -> string -> bool) (pg_error : Z -> Z -> string)
        (req : Request) (db : DB) :
  role (user req) = "super_admin" ->
  tenantId req = None ->
  run (create_project env req) db = (db, Rejected (TypeError "max_projects"))
  /\ list_projects ILIKE pg_error
       {| q_status := None; q_search := None; q_page := None; q_limit := None |}
       req db =
     {| r_status := 200; r_success := true; r_message := None;
        r_data := Some {| page_projects := []; total := 0;
                          pagination := {| currentPage := 1;
                                           totalPages := Some 0%Z;
                                           limit := 20 |} |} |}
  /\ get_project req db =
     {| r_status := 404; r_success := false;
        r_message := Some "Project not found"; r_data := None |}
  /\ run (update_project env req) db = (db, deny 404 "Project not found")
  /\ run (delete_project req) db = (db, deny 404 "Project not found").
Proof.
  intros Hrole Hnone.
  pose proof (tenantGuard_super_admin req Hrole) as Hg.
  assert (Hno : forall l : list ProjectRow,
             filter (fun p => sql_eq (p_tenant_id p) None) l = []).
  { intro l. apply filter_none. intros p _. now destruct (p_tenant_id p). }
  assert (Hrow : tenant_row None db = None).
  { apply find_all_false. reflexivity. }
  assert (Hnull : forall c, sql_eq c None = false).
  { now intros [c |]. }
  assert (Hfind : project_in_tenant (p_projectId (params req)) None db = None).
  { apply find_all_false. intros p _. rewrite Hnull. apply andb_false_r. }
  split; [| split; [| split; [| split]]].
  - unfold create_project. rewrite (chain_pass _ _ _ Hg).
    unfold create_project_handler. simpl. now rewrite Hnone, Hrow.
  - unfold list_projects. rewrite (guarded_pass _ _ _ _ Hg).
    unfold list_projects_handler, project_rows, count_projects. cbn [q_page q_limit].
    rewrite Hnone, Hno.
    replace (filter (listed ILIKE {| q_status := None; q_search := None;
                                      q_page := None; q_limit := None |} None)
                    (projects db)) with (@nil ProjectRow).
    + reflexivity.
    + symmetry. apply filter_none. intros p _. unfold listed.
      now rewrite Hnull.
  - unfold get_project. rewrite (guarded_pass _ _ _ _ Hg).
    unfold get_project_handler, project_details. rewrite Hnone.
    rewrite filter_none; [reflexivity |].
    intros p _. rewrite Hnull. apply andb_false_r.
  - unfold update_project. rewrite (chain_pass _ _ _ Hg).
    unfold update_project_handler. simpl. now rewrite Hnone, Hfind.
  - unfold delete_project. rewrite (chain_pass _ _ _ Hg).
    unfold delete_project_handler. simpl. now rewrite Hnone, Hfind.
Qed.

(** The seeded super_admin, in the sample database. *)
Lemma super_admin_reaches_no_project_witness :
  let req := Demo.request Demo.superadmin "super_admin" None
               (Sample.on_project "p1") (Demo.project_body "Mine") in
  length (projects Sample.db) = 3
  /\ run (create_project (Demo.env "p7") req) Sample.db
     = (Sample.db, Rejected (TypeError "max_projects"))
  /\ list_projects only_alpha no_message
       {| q_status := None; q_search := None; q_page := None; q_limit := None |}
       req Sample.db =
     {| r_status := 200; r_success := true; r_message := None;
        r_data := Some {| page_projects := []; total := 0;
                          pagination := {| currentPage := 1;
                                           totalPages := Some 0%Z;
                                           limit := 20 |} |} |}
  /\ get_project req Sample.db =
     {| r_status := 404; r_success := false;
        r_message := Some "Project not found"; r_data := None |}
  /\ run (update_project (Demo.env "p7") req) Sample.db
     = (Sample.db, deny 404 "Project not found")
  /\ run (delete_project req) Sample.db = (Sample.db, deny 404 "Project not found").
Proof.
  intro req. split; [reflexivity |].
  apply (super_admin_reaches_no_project (Demo.env "p7") only_alpha no_message
           req Sample.db);
    reflexivity.
Defined.

(** ** A tenant without a row *)

(** X29.  When the tenant of the claims has no row in [tenants], no creation
    handler writes anything, but they fail differently: the create-project
    handler and the first-registered add-user handler throw a TypeError
    outside any [try] and send no answer of their own, while API 8 catches
    it and answers 500 with the error's message. *)
Theorem creation_without_tenant_row
        (env : Env) (requireRole : string -> Middleware) (req : Request) (db : DB) :
  role (user req) = "tenant_admin" ->
  requireRole "tenant_admin" req = None ->
  tenantGuard req = None ->
  tenantId req = Some (p_tenantId (params req)) ->
  tenant_row (tenantId req) db = None ->
  run (create_project env req) db = (db, Rejected (TypeError "max_projects"))
  /\ run (add_user env requireRole req) db = (db, Rejected (TypeError "max_users"))
  /\ run (api8_add_user env req) db = (db, deny 500 (TypeError "max_users")).
Proof.
  intros Hrole Hrr Hg Hpath Hrow. split; [| split].
  - unfold create_project. rewrite (chain_pass _ _ _ Hg).
    unfold create_project_handler. simpl. now rewrite Hrow.
  - now apply add_user_no_tenant_row.
  - unfold api8_add_user. rewrite (chain_pass _ _ _ Hg).
    unfold api8_handler. rewrite Hrole. simpl.
    rewrite <- Hpath, Hrow. reflexivity.
Qed.

(** A tenant_admin whose claims name a tenant that has no row. *)
Lemma creation_without_tenant_row_witness :
  let req := Demo.request Demo.admin1 "tenant_admin" (Some "t9")
               (Sample.path "t9") (user_body "new@demo.com" "secret" "New") in
  run (create_project (Demo.env "x") req) Sample.db
  = (Sample.db, Rejected (TypeError "max_projects"))
  /\ run (add_user (Demo.env "x") Demo.requireRole req) Sample.db
     = (Sample.db, Rejected (TypeError "max_users"))
  /\ run (api8_add_user (Demo.env "x") req) Sample.db
     = (Sample.db, deny 500 (TypeError "max_users")).
Proof.
  intro req.
  apply (creation_without_tenant_row (Demo.env "x") Demo.requireRole req Sample.db);
    reflexivity.
Defined.

(** * The login page *)

Module Login.

(** What [api.post("/auth/login", ...)] settles to: the two places of the
    body where a token is looked for, or the error it rejects with. *)
Record LoginData := {
  nested_token : option string;
  top_token : option string
}.

Record AxiosError := {
  response_message : option string;
  err_message : option string
}.

Inductive PostResult :=
| Resolved (d : LoginData)
| Failed (e : AxiosError).

(** What the page holds once [handleLogin] has run: the token written to
    [localStorage] by this call, the route navigated to, the [error] state.
    [localStorage.setItem] and [navigate] are taken not to throw. *)
Record Page := {
  stored_token : option string;
  navigated : option string;
  error : string
}.

(** [a || b] *)
Definition or_else (a b : option string) : option string :=
  if falsy a then b else a.

Definition shown (m : option string) : string :=
  match m with Some s => s | None => "" end.

(** The [catch] block. *)
Definition failed (e : AxiosError) : Page :=
  {| stored_token := None; navigated := None;
     error := shown (or_else (response_message e)
                             (or_else (err_message e) (Some "Login failed"))) |}.

Definition handleLogin (r : PostResult) : Page :=
  match r with
  | Resolved d =>
      let token := or_else (nested_token d) (top_token d) in
      if falsy token then
        failed {| response_message := None;
                  err_message := Some "JWT token not found" |}
      else
        {| stored_token := token; navigated := Some "/dashboard"; error := "" |}
  | Failed e => failed e
  end.

End Login.

(** X30.  [handleLogin] ends in exactly one of two ways.  Either the
    request resolved with a token and the token is stored: the nested
    [data.data.token] when it is a non-empty string, else the top-level
    [data.token] when that one is; the page then navigates to /dashboard
    with no error shown.  Or nothing is stored, the page stays, and the
    error shown is non-empty: "JWT token not found" for a body with neither
    token, else the message of the response when it has one, else the
    message of the error when it has one, else "Login failed". *)
Theorem handleLogin_outcome (r : Login.PostResult) :
  let page := Login.handleLogin r in
  (exists d t,
      r = Login.Resolved d
      /\ t <> ""
      /\ (Login.nested_token d = Some t
          \/ (falsy (Login.nested_token d) = true /\ Login.top_token d = Some t))
      /\ page = {| Login.stored_token := Some t;
                   Login.navigated := Some "/dashboard";
                   Login.error := "" |})
  \/ (exists m,
        m <> ""
        /\ page = {| Login.stored_token := None; Login.navigated := None;
                     Login.error := m |}
        /\ match r with
           | Login.Resolved d =>
               falsy (Login.nested_token d) = true
               /\ falsy (Login.top_token d) = true
               /\ m = "JWT token not found"
           | Login.Failed e =>
               Login.response_message e = Some m
               \/ (falsy (Login.response_message e) = true
                   /\ Login.err_message e = Some m)
               \/ (falsy (Login.response_message e) = true
                   /\ falsy (Login.err_message e) = true
                   /\ m = "Login failed")
           end).
Proof.
  assert (Hne : forall a, falsy a = false -> exists t, a = Some t /\ t <> "").
  { intros [s |] H; [| discriminate]. exists s. split; [reflexivity |].
    simpl in H. now apply String.eqb_neq. }
  destruct r as [d | e]; cbv zeta; unfold Login.handleLogin, Login.or_else.
  - destruct (falsy (Login.nested_token d)) eqn:F1.
    + destruct (falsy (Login.top_token d)) eqn:F2.
      * right. exists "JWT token not found". repeat split. discriminate.
      * left. destruct (Hne _ F2) as [t [Ht Hnz]]. exists d, t.
        rewrite Ht. repeat split; auto.
    + left. destruct (Hne _ F1) as [t [Ht Hnz]]. exists d, t.
      rewrite F1, Ht. repeat split; auto.
  - right. unfold Login.failed, Login.or_else.
    destruct (falsy (Login.response_message e)) eqn:F1.
    + destruct (falsy (Login.err_message e)) eqn:F2.
      * exists "Login failed". repeat split; [discriminate |].
        right. right. repeat split.
      * destruct (Hne _ F2) as [t [Ht Hnz]]. exists t. rewrite Ht.
        repeat split; [exact Hnz |]. right. left. now split.
    + destruct (Hne _ F1) as [t [Ht Hnz]]. exists t. rewrite Ht.
      repeat split; [exact Hnz |]. now left.
Qed.
